(** * Material order routes (routes/materialOrderRoute.js)

    A shallow embedding of the five Express handlers of the material-order
    router, together with the part of the JavaScript run-time they rely on:
    truthiness, [parseFloat], [isNaN], [Number.prototype.toFixed], the
    multiplication and the strict comparison of IEEE 754 binary64 numbers.

    Numbers are the binary64 values of [SpecFloat] (precision 53, largest
    exponent 1024), so every arithmetic step of the handlers is computed
    exactly as the engine computes it. *)

From Stdlib Require Import ZArith Bool List Ascii String.
From Stdlib Require Import SpecFloat DecimalString.
From stdpp Require Import base option gmap strings.

Local Open Scope Z_scope.

(** ** Binary64 numbers *)

Module Num.

Definition prec : Z := 53.
Definition emax : Z := 1024.

Definition number := spec_float.

Definition nan : number := S754_nan.
Definition zero : number := S754_zero false.
Definition neg_zero : number := S754_zero true.
Definition infinity : number := S754_infinity false.

Definition mul (x y : number) : number := SFmul prec emax x y.

(** [x === y] on two numbers: IEEE equality, NaN is equal to nothing and
    the two zeros are equal. *)
Definition eqb (x y : number) : bool := SFeqb x y.

Definition is_nan (x : number) : bool :=
  match x with S754_nan => true | _ => false end.

Definition is_zero (x : number) : bool :=
  match x with S754_zero _ => true | _ => false end.

Definition is_finite (x : number) : bool :=
  match x with S754_zero _ | S754_finite _ _ _ => true | _ => false end.

Definition sign (x : number) : bool :=
  match x with
  | S754_zero s | S754_infinity s | S754_finite s _ _ => s
  | S754_nan => false
  end.

(** The Number value for the rational [n / d] with sign [s] ([0 <= n],
    [0 < d]): the quotient is computed on 64 bits or more, a last bit
    records whether the division was exact, and the result is rounded to
    nearest, ties to even. *)
Definition of_ratio (s : bool) (n d : Z) : number :=
  if n <=? 0 then S754_zero s
  else
    let k := Z.log2 n - Z.log2 d - 64 in
    let '(q, r) :=
      if 0 <=? k then Z.div_eucl n (d * 2 ^ k)
      else Z.div_eucl (n * 2 ^ (- k)) d in
    match 2 * q + (if r =? 0 then 0 else 1) with
    | Zpos m => binary_round prec emax s m (k - 1)
    | _ => S754_zero s
    end.

(** The magnitude of a finite number as a fraction [(n, d)]. *)
Definition to_ratio (x : number) : Z * Z :=
  match x with
  | S754_finite _ m e =>
      if 0 <=? e then (Zpos m * 2 ^ e, 1) else (Zpos m, 2 ^ (- e))
  | _ => (0, 1)
  end.

Definition of_Z (z : Z) : number := of_ratio (z <? 0) (Z.abs z) 1.

(** [s * 10 ^ e] as a number. *)
Definition of_decimal (neg : bool) (s e : Z) : number :=
  if 0 <=? e then of_ratio neg (s * 10 ^ e) 1
  else of_ratio neg s (10 ^ (- e)).

End Num.

(** ** Strings of digits and the numeric literals of the engine *)

Module Lit.

Local Open Scope string_scope.
Local Open Scope Z_scope.

Definition code (c : ascii) : Z := Z.of_nat (nat_of_ascii c).

Definition is_digit (c : ascii) : bool := (48 <=? code c) && (code c <=? 57).

(** StrWhiteSpaceChar, for code units below 256: TAB, LF, VT, FF, CR, SP
    and NBSP. *)
Definition is_space (c : ascii) : bool :=
  ((9 <=? code c) && (code c <=? 13)) || (code c =? 32) || (code c =? 160).

Fixpoint trim_start (s : string) : string :=
  match s with
  | String c r => if is_space c then trim_start r else s
  | EmptyString => s
  end.

Fixpoint all_space (s : string) : bool :=
  match s with
  | String c r => is_space c && all_space r
  | EmptyString => true
  end.

(** The longest run of decimal digits at the head of [s], and the rest. *)
Fixpoint span_digits (s : string) : string * string :=
  match s with
  | String c r =>
      if is_digit c then let '(d, t) := span_digits r in (String c d, t)
      else (EmptyString, s)
  | EmptyString => (EmptyString, EmptyString)
  end.

Fixpoint digits_value (acc : Z) (d : string) : Z :=
  match d with
  | String c r => digits_value (10 * acc + (code c - 48)) r
  | EmptyString => acc
  end.

Definition len (s : string) : Z := Z.of_nat (String.length s).

Definition is_empty (s : string) : bool :=
  match s with EmptyString => true | _ => false end.

(** ExponentPart, when one stands at the head of [s]: its value and the
    rest; [e] or [E] with no digit after it is no exponent part. *)
Definition exponent_part (s : string) : Z * string :=
  match s with
  | String c r =>
      if (code c =? 101) || (code c =? 69) then
        let '(neg, r1) :=
          match r with
          | String "+" t => (false, t)
          | String "-" t => (true, t)
          | _ => (false, r)
          end in
        let '(ed, r2) := span_digits r1 in
        if is_empty ed then (0, s)
        else (if neg then - digits_value 0 ed else digits_value 0 ed, r2)
      else (0, s)
  | EmptyString => (0, s)
  end.

(** The longest prefix of [s] that is a StrUnsignedDecimalLiteral other than
    Infinity, as [(m, e, rest)] with mathematical value [m * 10 ^ e]. *)
Definition unsigned_decimal (s : string) : option (Z * Z * string) :=
  let '(ip, r1) := span_digits s in
  let '(fp, r2) :=
    match r1 with
    | String "." t => let '(f, u) := span_digits t in (f, u)
    | _ => (EmptyString, r1)
    end in
  if is_empty ip && is_empty fp then None
  else
    let '(e, r3) := exponent_part r2 in
    Some (digits_value 0 (String.append ip fp), e - len fp, r3).

(** [s] without the prefix [p], when it starts with it. *)
Fixpoint strip_prefix (p s : string) : option string :=
  match p, s with
  | EmptyString, _ => Some s
  | String a p', String b s' =>
      if Ascii.eqb a b then strip_prefix p' s' else None
  | _, EmptyString => None
  end.

(** The longest prefix of [s] that is a StrDecimalLiteral: its Number value
    and the rest of [s]. *)
Definition decimal_literal (s : string) : option (Num.number * string) :=
  let '(neg, u) :=
    match s with
    | String "+" t => (false, t)
    | String "-" t => (true, t)
    | _ => (false, s)
    end in
  match strip_prefix "Infinity" u with
  | Some r => Some (S754_infinity neg, r)
  | None =>
      match unsigned_decimal u with
      | Some (m, e, r) => Some (Num.of_decimal neg m e, r)
      | None => None
      end
  end.

(** The decimal digits of a natural number. *)
Definition digits_of (n : Z) : string :=
  NilZero.string_of_uint (N.to_uint (Z.to_N n)).

Fixpoint zeros (n : nat) : string :=
  match n with O => EmptyString | S k => String "0" (zeros k) end.

Definition take (n : Z) (s : string) : string := substring 0 (Z.to_nat n) s.
Definition drop (n : Z) (s : string) : string :=
  substring (Z.to_nat n) (String.length s - Z.to_nat n) s.

End Lit.

(** ** JavaScript values and the built-ins the handlers call *)

Module Js.

Local Open Scope string_scope.
Local Open Scope Z_scope.

(** A value of a parsed request body or of a document. [VUndefined] is what
    reading an absent member gives. An array or a nested object is carried
    as [VObj repr], where [repr] is the string its ToString conversion
    yields (the joined elements of an array, ["[object Object]"] for a plain
    object). [VThrows] is an object or an array on which that conversion
    throws a TypeError: an object with an own member [toString] (a member of
    a parsed body is never a function), or an array that holds one. *)
Inductive value :=
| VUndefined
| VNull
| VBool (b : bool)
| VNum (x : Num.number)
| VStr (s : string)
| VObj (repr : string)
| VThrows.

(** ToBoolean: [undefined], [null], [false], both zeros, NaN and the empty
    string are falsy, every other value is truthy. *)
Definition truthy (v : value) : bool :=
  match v with
  | VUndefined | VNull => false
  | VBool b => b
  | VNum x => negb (Num.is_zero x || Num.is_nan x)
  | VStr s => negb (Lit.is_empty s)
  | VObj _ | VThrows => true
  end.

(** *** Number::toString, radix 10 *)

(** [a / b < 10 ^ n] *)
Definition below_pow10 (a b n : Z) : bool :=
  if 0 <=? n then a <? b * 10 ^ n else a * 10 ^ (- n) <? b.

Fixpoint adjust_up (fuel : nat) (a b n : Z) : Z :=
  match fuel with
  | O => n
  | S f => if below_pow10 a b n then n else adjust_up f a b (n + 1)
  end.

Fixpoint adjust_down (fuel : nat) (a b n : Z) : Z :=
  match fuel with
  | O => n
  | S f => if below_pow10 a b (n - 1) then adjust_down f a b (n - 1) else n
  end.

(** The [n] with [10 ^ (n - 1) <= a / b < 10 ^ n], found from an estimate
    by the binary logarithms, which is off by one at most. *)
Definition decimal_exponent (a b : Z) : Z :=
  let n0 := (Z.log2 a - Z.log2 b) * 30103 / 100000 in
  adjust_down 4 a b (adjust_up 4 a b n0).

(** [floor (a / b / 10 ^ e)] *)
Definition scaled_floor (a b e : Z) : Z :=
  if 0 <=? e then a / (b * 10 ^ e) else a * 10 ^ (- e) / b.

(** [a / b] against the middle of [s * 10 ^ e] and [(s + 1) * 10 ^ e]. *)
Definition against_middle (a b s e : Z) : comparison :=
  if 0 <=? e then 2 * a ?= (2 * s + 1) * 10 ^ e * b
  else 2 * a * 10 ^ (- e) ?= (2 * s + 1) * b.

Definition same_number (x y : Num.number) : bool :=
  match x, y with
  | S754_zero s, S754_zero t | S754_infinity s, S754_infinity t => Bool.eqb s t
  | S754_nan, S754_nan => true
  | S754_finite s m e, S754_finite t n f =>
      Bool.eqb s t && Pos.eqb m n && Z.eqb e f
  | _, _ => false
  end.

(** The digits [s] and the exponent [n] of Number::toString for the
    positive finite [x = a / b]: [k] is the least number of digits with
    which [s * 10 ^ (n - k)] reads back as [x]; of two such [s] the one
    nearer to [x] is taken, the even one when they are as near. *)
Fixpoint shortest (fuel : nat) (x : Num.number) (a b n k : Z) : Z * Z :=
  let e := n - k in
  let lo := scaled_floor a b e in
  let hi := lo + 1 in
  let lo_ok := same_number (Num.of_decimal false lo e) x in
  let hi_ok := same_number (Num.of_decimal false hi e) x in
  let found s := if s =? 10 ^ k then (1, n + 1) else (s, n) in
  if lo_ok && hi_ok then
    found (match against_middle a b lo e with
           | Lt => lo
           | Gt => hi
           | Eq => if Z.even lo then lo else hi
           end)
  else if lo_ok then found lo
  else if hi_ok then found hi
  else
    match fuel with
    | S f => shortest f x a b n (k + 1)
    | O => (lo, n)
    end.

Definition number_layout (ds : string) (n : Z) : string :=
  let k := Lit.len ds in
  if (k <=? n) && (n <=? 21) then ds ++ Lit.zeros (Z.to_nat (n - k))
  else if (0 <? n) && (n <=? 21) then Lit.take n ds ++ "." ++ Lit.drop n ds
  else if (-6 <? n) && (n <=? 0) then
    "0." ++ Lit.zeros (Z.to_nat (- n)) ++ ds
  else
    let e := n - 1 in
    let es := (if e <? 0 then "-" else "+") ++ Lit.digits_of (Z.abs e) in
    if k =? 1 then ds ++ "e" ++ es
    else Lit.take 1 ds ++ "." ++ Lit.drop 1 ds ++ "e" ++ es.

Definition number_toString (x : Num.number) : string :=
  match x with
  | S754_nan => "NaN"
  | S754_zero _ => "0"
  | S754_infinity s => if s then "-Infinity" else "Infinity"
  | S754_finite s _ _ =>
      let '(a, b) := Num.to_ratio x in
      let n := decimal_exponent a b in
      let '(d, n') := shortest 20 (Num.of_ratio false a b) a b n 1 in
      (if s then "-" else "") ++ number_layout (Lit.digits_of d) n'
  end.

(** *** Number.prototype.toFixed *)

(** [x.toFixed(f)]: the integer [n] for which [n / 10 ^ f - x] is nearest to
    zero, the larger one of two, written with [f] digits after the point;
    Number::toString for a number that is not finite or is [10 ^ 21] or
    more. *)
Definition toFixed (x : Num.number) (f : Z) : string :=
  if negb (Num.is_finite x) then number_toString x
  else
    let '(a, b) := Num.to_ratio x in
    if 10 ^ 21 * b <=? a then number_toString x
    else
      let n := (2 * a * 10 ^ f + b) / (2 * b) in
      let m := Lit.digits_of n in
      let m :=
        if f =? 0 then m
        else
          let m :=
            if Lit.len m <=? f then Lit.zeros (Z.to_nat (f + 1 - Lit.len m)) ++ m
            else m in
          let k := Lit.len m in
          Lit.take (k - f) m ++ "." ++ Lit.drop (k - f) m in
      (if Num.sign x && negb (Num.is_zero x) then "-" else "") ++ m.

(** *** ToString, parseFloat, isNaN, ToNumber *)

(** ToString; [None] when the conversion throws. *)
Definition toString (v : value) : option string :=
  match v with
  | VUndefined => Some "undefined"
  | VNull => Some "null"
  | VBool b => Some (if b then "true" else "false")
  | VNum x => Some (number_toString x)
  | VStr s => Some s
  | VObj repr => Some repr
  | VThrows => None
  end.

(** The conversion of [v] to a string returns. *)
Definition converts (v : value) : bool :=
  match toString v with Some _ => true | None => false end.

(** What [parseFloat] makes of a string: leading white space is dropped,
    and the longest prefix that is a decimal literal gives the result; NaN
    when there is no such prefix. *)
Definition parse_float (s : string) : Num.number :=
  match Lit.decimal_literal (Lit.trim_start s) with
  | Some (x, _) => x
  | None => Num.nan
  end.

(** [parseFloat(v)]: the argument is converted to a string, which is then
    parsed; [None] when the conversion throws. *)
Definition parseFloat (v : value) : option Num.number :=
  match toString v with
  | Some s => Some (parse_float s)
  | None => None
  end.

(** The number [parseFloat(v)] returns, for the conditions and the records
    that are stated where the call has returned; NaN where it throws. *)
Definition parsed (v : value) : Num.number :=
  match parseFloat v with Some x => x | None => Num.nan end.

(** [isNaN(x)] on a number. *)
Definition isNaN (x : Num.number) : bool := Num.is_nan x.

Definition digit_in (base : Z) (c : ascii) : option Z :=
  let n := Lit.code c in
  let v :=
    if (48 <=? n) && (n <=? 57) then n - 48
    else if (97 <=? n) && (n <=? 102) then n - 87
    else if (65 <=? n) && (n <=? 70) then n - 55
    else base in
  if v <? base then Some v else None.

Fixpoint radix_value (base acc : Z) (s : string) : Z * string :=
  match s with
  | String c r =>
      match digit_in base c with
      | Some v => radix_value base (base * acc + v) r
      | None => (acc, s)
      end
  | EmptyString => (acc, s)
  end.

(** NonDecimalIntegerLiteral at the head of [s]: 0x, 0o or 0b (in either
    case) and one digit or more of that base. *)
Definition non_decimal_literal (s : string) : option (Num.number * string) :=
  match s with
  | String "0" (String c (String d _ as r)) =>
      let n := Lit.code c in
      let base :=
        if (n =? 120) || (n =? 88) then 16
        else if (n =? 111) || (n =? 79) then 8
        else if (n =? 98) || (n =? 66) then 2
        else 0 in
      match digit_in base d with
      | Some _ => let '(v, t) := radix_value base 0 r in Some (Num.of_Z v, t)
      | None => None
      end
  | _ => None
  end.

(** StringToNumber: white space around the literal is dropped, the empty
    string is [+0], and the whole of what is left must be one numeric
    literal; anything else is NaN. *)
Definition string_to_number (s : string) : Num.number :=
  let t := Lit.trim_start s in
  if Lit.is_empty t then Num.zero
  else
    let whole (p : option (Num.number * string)) :=
      match p with
      | Some (x, r) => if Lit.all_space r then Some x else None
      | None => None
      end in
    match whole (Lit.decimal_literal t), whole (non_decimal_literal t) with
    | Some x, _ => x
    | None, Some x => x
    | None, None => Num.nan
    end.

(** ToNumber, as the operator [*] applies it to its operands; [None] when
    the conversion of an object to a primitive throws. *)
Definition toNumber (v : value) : option Num.number :=
  match v with
  | VUndefined => Some Num.nan
  | VNull => Some Num.zero
  | VBool b => Some (if b then Num.of_Z 1 else Num.zero)
  | VNum x => Some x
  | VStr s => Some (string_to_number s)
  | VObj repr => Some (string_to_number repr)
  | VThrows => None
  end.

(** [a * b]; [None] when the conversion of an operand throws. *)
Definition times (a b : value) : option Num.number :=
  match toNumber a, toNumber b with
  | Some x, Some y => Some (Num.mul x y)
  | _, _ => None
  end.

(** [x !== v] for a number [x]: a value of another type is never strictly
    equal to it. *)
Definition strict_neq (x : Num.number) (v : value) : bool :=
  match v with
  | VNum y => negb (Num.eqb x y)
  | _ => true
  end.

End Js.

(** ** The router *)

Module Route.

Import Js.

Local Open Scope string_scope.

(** An object of the engine: its own members, by name. *)
Abbreviation object := (gmap string value).

(** [o.k]: reading a member that the object does not have gives
    [undefined]. *)
Definition get (k : string) (o : object) : value := default VUndefined (o !! k).

(** A document of the model [MaterialOrder]: the identifier the storage
    gave it and its fields. *)
Record document := { doc_id : string; doc_fields : object }.

(** What [res.json] is given. *)
Inductive reply :=
| Message (message : string)
| MessageOrder (message : string) (order : document)
| Order (order : document)
| Orders (orders : list document).

(** [res.status(code).json(body)] *)
Record response := { status : Z; body : reply }.

(** The calls the handlers make on the model [MaterialOrder]. *)
Inductive call : Type -> Type :=
| Save (fields : object) : call document
| Find : call (list document)
| FindById (id : string) : call (option document)
| FindByIdAndUpdate (id : string) (updates : object) : call (option document)
| FindByIdAndDelete (id : string) : call (option document).

(** How an awaited call ends: with a result, or with an exception, which
    the [catch] of the handler receives. *)
Inductive settled (A : Type) :=
| Fulfilled (a : A)
| Rejected.
Arguments Fulfilled {A} a.
Arguments Rejected {A}.

(** A handler either answers, or awaits a call on the model and goes on
    with how it settled. *)
Inductive handler :=
| Respond (r : response)
| Await {A : Type} (c : call A) (k : settled A -> handler).

Definition res (code : Z) (b : reply) : handler :=
  Respond {| status := code; body := b |}.

(** A statement of a [try] block that can throw: the handler goes on with
    its value, or the [catch] block answers. *)
Definition attempt {A : Type} (catch : handler) (r : option A)
    (k : A -> handler) : handler :=
  match r with
  | Some a => k a
  | None => catch
  end.

(** *** POST / *)

Definition new_order
    (materialId itemDescription supplier : value) (quantity : Num.number)
    (unitOfMeasurement : value) (unitPrice totalPrice : Num.number)
    (orderDate items status : value) : object :=
  <["materialId" := materialId]> (
  <["itemDescription" := itemDescription]> (
  <["supplier" := supplier]> (
  <["quantity" := VNum quantity]> (
  <["unitOfMeasurement" := unitOfMeasurement]> (
  <["unitPrice" := VNum unitPrice]> (
  <["totalPrice" := VNum totalPrice]> (
  <["orderDate" := orderDate]> (
  <["items" := items]> (
  <["status" := if truthy status then status else VStr "Pending"]> ∅))))))))).

Definition create (body : object) : handler :=
  let catch := res 500 (Message "Server error. Please try again later.") in
  let materialId := get "materialId" body in
  let itemDescription := get "itemDescription" body in
  let supplier := get "supplier" body in
  let quantity := get "quantity" body in
  let unitOfMeasurement := get "unitOfMeasurement" body in
  let unitPrice := get "unitPrice" body in
  let totalPrice := get "totalPrice" body in
  let orderDate := get "orderDate" body in
  let items := get "items" body in
  let status := get "status" body in
  if negb (truthy materialId) || negb (truthy itemDescription)
     || negb (truthy supplier) || negb (truthy quantity)
     || negb (truthy unitOfMeasurement) || negb (truthy unitPrice)
     || negb (truthy totalPrice) || negb (truthy orderDate)
  then res 400 (Message "All fields are required.")
  else
    attempt catch (parseFloat quantity) (fun parsedQuantity =>
    attempt catch (parseFloat unitPrice) (fun parsedUnitPrice =>
    attempt catch (parseFloat totalPrice) (fun parsedTotalPrice =>
    if isNaN parsedQuantity || isNaN parsedUnitPrice || isNaN parsedTotalPrice
    then
      res 400 (Message
        "Quantity, Unit Price, and Total Price must be valid numbers.")
    else
      let calculatedTotal := Num.mul parsedQuantity parsedUnitPrice in
      attempt catch (parseFloat (VStr (toFixed calculatedTotal 2)))
        (fun roundedCalculatedTotal =>
      if strict_neq roundedCalculatedTotal (VNum parsedTotalPrice)
      then
        res 400 (Message "Error in Total Price: Your total price is incorrect")
      else
        let newMaterialOrder :=
          new_order materialId itemDescription supplier parsedQuantity
            unitOfMeasurement parsedUnitPrice parsedTotalPrice orderDate
            items status in
        Await (Save newMaterialOrder) (fun saved =>
          match saved with
          | Fulfilled order =>
              res 201 (MessageOrder "Material Request created successfully" order)
          | Rejected => catch
          end))))).

(** *** GET /allList *)

Definition list_all : handler :=
  Await Find (fun found =>
    match found with
    | Fulfilled materialOrders => res 200 (Orders materialOrders)
    | Rejected => res 500 (Message "Server error")
    end).

(** *** GET /:id *)

Definition get_by_id (id : string) : handler :=
  Await (FindById id) (fun found =>
    match found with
    | Fulfilled None => res 404 (Message "Material order not found")
    | Fulfilled (Some order) => res 200 (Order order)
    | Rejected => res 500 (Message "Server error")
    end).

(** *** PUT /:id *)

(** [if (updates.k) updates.k = parseFloat(updates.k);], which throws when
    [parseFloat] does. *)
Definition parse_member (k : string) (updates : object) : option object :=
  if truthy (get k updates) then
    match parseFloat (get k updates) with
    | Some x => Some (<[k := VNum x]> updates)
    | None => None
    end
  else Some updates.

Definition update (id : string) (body : object) : handler :=
  let catch := res 500 (Message "Server error. Please try again later.") in
  let updates := body in
  attempt catch (parse_member "quantity" updates) (fun updates =>
  attempt catch (parse_member "unitPrice" updates) (fun updates =>
  attempt catch (parse_member "totalPrice" updates) (fun updates =>
  let store :=
    Await (FindByIdAndUpdate id updates) (fun found =>
      match found with
      | Fulfilled None => res 404 (Message "Material request not found")
      | Fulfilled (Some updatedOrder) =>
          res 200 (MessageOrder "Material request updated successfully"
                     updatedOrder)
      | Rejected => catch
      end) in
  if truthy (get "quantity" updates) && truthy (get "unitPrice" updates) then
    attempt catch (times (get "quantity" updates) (get "unitPrice" updates))
      (fun calculatedTotal =>
    attempt catch (parseFloat (VStr (toFixed calculatedTotal 2)))
      (fun roundedCalculatedTotal =>
    if truthy (get "totalPrice" updates)
       && strict_neq roundedCalculatedTotal (get "totalPrice" updates)
    then
      res 400 (Message "Error in Total Price: Your total price is incorrect.")
    else store))
  else store))).

(** *** DELETE /:id *)

Definition delete_by_id (id : string) : handler :=
  Await (FindByIdAndDelete id) (fun found =>
    match found with
    | Fulfilled None => res 404 (Message "Material order not found")
    | Fulfilled (Some _) => res 200 (Message "Material order deleted successfully")
    | Rejected => res 500 (Message "Server error")
    end).

(** *** The conditions of the handlers, by name *)

Definition required_fields : list string :=
  [ "materialId"; "itemDescription"; "supplier"; "quantity";
    "unitOfMeasurement"; "unitPrice"; "totalPrice"; "orderDate" ].

(** Every required field of the body is truthy. *)
Definition required_present (body : object) : bool :=
  forallb (fun k => truthy (get k body)) required_fields.

(** [parseFloat] throws on none of quantity, unitPrice and totalPrice. *)
Definition parses (body : object) : bool :=
  converts (get "quantity" body) && converts (get "unitPrice" body)
  && converts (get "totalPrice" body).

(** The three numbers are parsed and none of them is NaN. *)
Definition numbers_valid (body : object) : bool :=
  parses body
  && negb (isNaN (parsed (get "quantity" body)))
  && negb (isNaN (parsed (get "unitPrice" body)))
  && negb (isNaN (parsed (get "totalPrice" body))).

(** [parseFloat((a * b).toFixed(2))] *)
Definition rounded_total (a b : Num.number) : Num.number :=
  parse_float (toFixed (Num.mul a b) 2).

(** The rounded product of the parsed quantity and unit price is not the
    parsed total price. *)
Definition total_mismatch (body : object) : bool :=
  strict_neq
    (rounded_total (parsed (get "quantity" body))
                   (parsed (get "unitPrice" body)))
    (VNum (parsed (get "totalPrice" body))).

(** The body passes the three checks of [create]. *)
Definition valid_create (body : object) : bool :=
  required_present body && numbers_valid body && negb (total_mismatch body).

(** The record [create] builds from a body. *)
Definition order_of (body : object) : object :=
  new_order (get "materialId" body) (get "itemDescription" body)
    (get "supplier" body) (parsed (get "quantity" body))
    (get "unitOfMeasurement" body) (parsed (get "unitPrice" body))
    (parsed (get "totalPrice" body)) (get "orderDate" body)
    (get "items" body) (get "status" body).

(** The fields that [update] parses. *)
Definition is_numeric (k : string) : bool :=
  String.eqb k "quantity" || String.eqb k "unitPrice" || String.eqb k "totalPrice".

(** [parseFloat] throws on none of the members that [update] parses: each
    of quantity, unitPrice and totalPrice is falsy, and left alone, or
    converts to a string. *)
Definition update_parses (body : object) : bool :=
  forallb (fun k => negb (truthy (get k body)) || converts (get k body))
    [ "quantity"; "unitPrice"; "totalPrice" ].

(** The object after a parsing statement that has not thrown. *)
Definition with_parsed (k : string) (updates : object) : object :=
  if truthy (get k updates) then <[k := VNum (parsed (get k updates))]> updates
  else updates.

(** The payload of [update] after its three parsing statements. *)
Definition parsed_updates (body : object) : object :=
  with_parsed "totalPrice" (with_parsed "unitPrice" (with_parsed "quantity" body)).

(** The last part of [update]: the call on the model and the answer. *)
Definition forward (id : string) (updates : object) : handler :=
  Await (FindByIdAndUpdate id updates) (fun found =>
    match found with
    | Fulfilled None => res 404 (Message "Material request not found")
    | Fulfilled (Some updatedOrder) =>
        res 200 (MessageOrder "Material request updated successfully"
                   updatedOrder)
    | Rejected => res 500 (Message "Server error. Please try again later.")
    end).

(** The comparison of [update] is reached: quantity, unit price and total
    price are truthy after the parsing statements. *)
Definition recheck_fires (body : object) : bool :=
  let updates := parsed_updates body in
  truthy (get "quantity" updates) && truthy (get "unitPrice" updates)
  && truthy (get "totalPrice" updates).

(** The comparison of [update] finds the rounded product different from the
    total price. *)
Definition recheck_mismatch (body : object) : bool :=
  let updates := parsed_updates body in
  match times (get "quantity" updates) (get "unitPrice" updates) with
  | Some calculatedTotal =>
      strict_neq (parse_float (toFixed calculatedTotal 2))
                 (get "totalPrice" updates)
  | None => false
  end.

End Route.

(** ** The storage collaborator *)

Module Storage.

Import Js Route.

(** The collection: the fields of each stored record, by identifier. *)
Abbreviation collection := (gmap string object).

(** Modelled from the spec: the model [MaterialOrder] of
    database/Schema/materialOrderSchema and the document store behind it,
    which are not part of the sources. Creating stores the new record under
    an identifier that the storage picks and that no stored record has;
    finding by identifier gives the record or nothing; updating merges the
    given fields into the stored ones (the fields that are not given stay)
    and gives the updated record; deleting removes the record and gives the
    removed one. The modelled store never fails: the failures of a real one
    are the [Rejected] outcome that every handler answers with 500. *)
Definition perform {A : Type} (c : call A) (db : collection)
  : settled A * collection :=
  match c in call T return settled T * collection with
  | Save fields =>
      let id := fresh (dom db) in
      (Fulfilled {| doc_id := id; doc_fields := fields |}, <[id := fields]> db)
  | Find =>
      (Fulfilled (map (fun e => {| doc_id := fst e; doc_fields := snd e |})
                      (map_to_list db)), db)
  | FindById id => (Fulfilled (Build_document id <$> db !! id), db)
  | FindByIdAndUpdate id updates =>
      match db !! id with
      | Some fields =>
          let merged := updates ∪ fields in
          (Fulfilled (Some {| doc_id := id; doc_fields := merged |}),
           <[id := merged]> db)
      | None => (Fulfilled None, db)
      end
  | FindByIdAndDelete id =>
      (Fulfilled (Build_document id <$> db !! id), delete id db)
  end.

(** A handler run against the collection: the answer and the collection
    afterwards. *)
Fixpoint run (h : handler) (db : collection) : response * collection :=
  match h with
  | Respond r => (r, db)
  | Await c k => let '(r, db') := perform c db in run (k r) db'
  end.

End Storage.

(** ** The handlers against any storage *)

Module Service.

Import Route.

(** A storage collaborator with state [S]: how each call on the model
    settles, and the state it leaves. *)
Definition storage (S : Type) : Type :=
  forall A : Type, call A -> S -> settled A * S.

(** A handler run against a storage: the answer and the state afterwards. A
    rejected call is what the [catch] of the handler receives. *)
Fixpoint run_on {S : Type} (perform : storage S) (h : handler) (s : S)
  : response * S :=
  match h with
  | Respond r => (r, s)
  | Await c k => let '(r, s') := perform _ c s in run_on perform (k r) s'
  end.

(** A storage that is out of reach: it rejects every call. *)
Definition unavailable : storage unit := fun A _ s => (Rejected, s).

End Service.

(** ** Sample payloads *)

Module Sample.

Import Js Route Storage.

Local Open Scope string_scope.

(** The number a decimal literal of the source text denotes. *)
Definition num (literal : string) : value := VNum (parse_float literal).

(** The five required fields that are not numbers. *)
Definition described : object :=
  <["materialId" := VStr "M-100"]> (
  <["itemDescription" := VStr "Steel bolts"]> (
  <["supplier" := VStr "Acme"]> (
  <["unitOfMeasurement" := VStr "box"]> (
  <["orderDate" := VStr "2024-05-01"]> ∅)))).

Definition priced (quantity unitPrice totalPrice : value) (o : object) : object :=
  <["quantity" := quantity]> (
  <["unitPrice" := unitPrice]> (
  <["totalPrice" := totalPrice]> o)).

(** quantity 3, unitPrice 2.505, totalPrice 7.50, with and without the
    other required fields. *)
Definition order_3_2505 : object := priced (num "3") (num "2.505") (num "7.50") described.
Definition bare_3_2505 : object := priced (num "3") (num "2.505") (num "7.50") ∅.

(** quantity 10, unitPrice 2.50, totalPrice 25.00 *)
Definition order_10_250 : object := priced (num "10") (num "2.50") (num "25.00") described.

(** A stored record. *)
Definition stored : object := <["status" := VStr "Pending"]> order_10_250.

(** Update payloads: [{quantity: 5, unitPrice: 4}], a triple with a wrong
    total, [{status: "Shipped"}], a quantity that is no number, and a zero
    quantity next to a unit price and a total. *)
Definition update_5_4 : object :=
  <["quantity" := num "5"]> (<["unitPrice" := num "4"]> ∅).
Definition update_2_3_7 : object := priced (num "2") (num "3") (num "7") ∅.
Definition update_shipped : object := <["status" := VStr "Shipped"]> ∅.
Definition update_dozen : object := <["quantity" := VStr "a dozen"]> ∅.
Definition update_0_4_999 : object := priced (num "0") (num "4") (num "999") ∅.

(** Payloads with a member on which [parseFloat] throws: a create payload
    whose quantity is no number and whose unit price throws, and update
    payloads the same way, with a status, and with a zero quantity. *)
Definition order_abc_throws : object :=
  priced (VStr "abc") VThrows (num "25.00") described.
Definition update_abc_throws : object :=
  <["quantity" := VStr "abc"]> (<["unitPrice" := VThrows]> ∅).
Definition update_shipped_throws : object :=
  <["status" := VStr "Shipped"]> (<["quantity" := VThrows]> ∅).
Definition update_0_4_throws : object := priced (num "0") (num "4") VThrows ∅.

(** A valid create payload whose status is the empty string. *)
Definition order_empty_status : object := <["status" := VStr ""]> order_10_250.

(** A collection that holds the stored record under the identifier
    ["a"]. *)
Definition one_record : collection := <["a" := stored]> ∅.

End Sample.

(** * Properties of the handlers *)

Module Properties.

Import Js Route Storage.

Local Open Scope string_scope.

(** Comparisons of two literal names are evaluated. *)
Ltac eval_names :=
  repeat match goal with
  | |- context [String.eqb (String ?a ?s) (String ?b ?t)] =>
      let v := eval vm_compute in (String.eqb (String a s) (String b t)) in
      change (String.eqb (String a s) (String b t)) with v
  end;
  cbn [andb orb].

(** A closed equation between two terms that evaluate to the same value. *)
Ltac evaluated :=
  match goal with
  | |- ?a = ?b => vm_cast_no_check (@eq_refl _ b)
  end.

(** ** The built-ins on known values *)

(** 0.1 is 0x3FB999999999999A. *)
Example parseFloat_tenth :
  parse_float "0.1" = S754_finite false 7205759403792794 (-56).
Proof. evaluated. Qed.

(** The rounded quotient of two integers is their IEEE quotient. *)
Example of_ratio_division :
  Num.of_ratio false 2505 1000
  = SFdiv Num.prec Num.emax (Num.of_Z 2505) (Num.of_Z 1000)
  /\ Num.of_ratio false 1 3
     = SFdiv Num.prec Num.emax (Num.of_Z 1) (Num.of_Z 3)
  /\ Num.of_ratio true 7515 1000
     = SFdiv Num.prec Num.emax (Num.of_Z (-7515)) (Num.of_Z 1000).
Proof. repeat split; evaluated. Qed.

Example parseFloat_prefixes :
  map (fun s => number_toString (parse_float s))
    ["  12.5px"; ".5"; "5."; "1e"; "-.5e-2x"; "+Infinityx"; "0x10"; "abc";
     ""; "1e400"; "9007199254740993"; "5e-324"; "2e-324"]
  = ["12.5"; "0.5"; "5"; "1"; "-0.005"; "Infinity"; "0"; "NaN";
     "NaN"; "Infinity"; "9007199254740992"; "5e-324"; "0"].
Proof. evaluated. Qed.

Example number_toString_layouts :
  map (fun s => number_toString (parse_float s))
    ["123456789012345680000"; "1e21"; "0.000001"; "1e-7"; "1e23";
     "0.30000000000000004"; "1.7976931348623157e308"; "-0"; "25.00"]
  = ["123456789012345680000"; "1e+21"; "0.000001"; "1e-7"; "1e+23";
     "0.30000000000000004"; "1.7976931348623157e+308"; "0"; "25"].
Proof. evaluated. Qed.

Example toFixed_known :
  map (fun s => toFixed (parse_float s) 2)
    ["25"; "1.005"; "8.345"; "10.235"; "-0.001"; "0.005"; "1e21"; "1e20";
     "NaN"; "-Infinity"]
  = ["25.00"; "1.00"; "8.35"; "10.23"; "-0.00"; "0.01"; "1e+21";
     "100000000000000000000.00"; "NaN"; "-Infinity"].
Proof. evaluated. Qed.

(** Of two shortest digit strings as near to the number, the even one. *)
Example number_toString_tie :
  number_toString (parse_float "1125899906842624.25") = "1125899906842624.2".
Proof. evaluated. Qed.

(** [parseFloat] throws where the conversion to a string does. *)
Example parseFloat_throws :
  parseFloat VThrows = None /\ parseFloat (VObj "12,5") = Some (parse_float "12")
  /\ truthy VThrows = true.
Proof. repeat split; evaluated. Qed.

(** A number given as a number parses to itself. *)
Example parseFloat_of_number :
  map (fun s => parseFloat (Sample.num s)) ["3"; "2.505"; "7.50"; "1e21"; "5e-324"]
  = map (fun s => Some (parse_float s)) ["3"; "2.505"; "7.50"; "1e21"; "5e-324"].
Proof. evaluated. Qed.

(** quantity 10, unitPrice 2.50, totalPrice 25.00 is a valid create. *)
Example create_10_250 :
  fst (run (create Sample.order_10_250) ∅) =
  {| status := 201;
     body := MessageOrder "Material Request created successfully"
               {| doc_id := fresh (dom (∅ : collection));
                  doc_fields := order_of Sample.order_10_250 |} |}.
Proof. evaluated. Qed.

(** getById on an identifier that is not stored, and listAll on the empty
    collection. *)
Example get_absent_404 :
  fst (run (get_by_id "b") Sample.one_record) =
  {| status := 404; body := Message "Material order not found" |}.
Proof. evaluated. Qed.

Example list_all_empty :
  fst (run list_all ∅) = {| status := 200; body := Orders [] |}.
Proof. evaluated. Qed.

(** ** How the handlers branch *)

Lemma required_guard (body : object) :
  negb (truthy (get "materialId" body))
  || negb (truthy (get "itemDescription" body))
  || negb (truthy (get "supplier" body)) || negb (truthy (get "quantity" body))
  || negb (truthy (get "unitOfMeasurement" body))
  || negb (truthy (get "unitPrice" body))
  || negb (truthy (get "totalPrice" body))
  || negb (truthy (get "orderDate" body))
  = negb (required_present body).
Proof.
  unfold required_present, required_fields. cbn [forallb].
  destruct (truthy (get "materialId" body)),
    (truthy (get "itemDescription" body)), (truthy (get "supplier" body)),
    (truthy (get "quantity" body)), (truthy (get "unitOfMeasurement" body)),
    (truthy (get "unitPrice" body)), (truthy (get "totalPrice" body)),
    (truthy (get "orderDate" body)); reflexivity.
Qed.

Lemma create_unfold (body : object) :
  create body =
  if negb (required_present body) then
    res 400 (Message "All fields are required.")
  else if negb (parses body) then
    res 500 (Message "Server error. Please try again later.")
  else if negb (numbers_valid body) then
    res 400 (Message
      "Quantity, Unit Price, and Total Price must be valid numbers.")
  else if total_mismatch body then
    res 400 (Message "Error in Total Price: Your total price is incorrect")
  else
    Await (Save (order_of body)) (fun saved =>
      match saved with
      | Fulfilled order =>
          res 201 (MessageOrder "Material Request created successfully" order)
      | Rejected => res 500 (Message "Server error. Please try again later.")
      end).
Proof.
  unfold create. cbv zeta. rewrite required_guard.
  destruct (required_present body); cbn [negb]; [|reflexivity].
  unfold numbers_valid, parses, converts, total_mismatch, rounded_total,
    order_of, parsed, parseFloat, attempt.
  destruct (toString (get "quantity" body)) as [q|]; [|reflexivity].
  destruct (toString (get "unitPrice" body)) as [u|]; [|reflexivity].
  destruct (toString (get "totalPrice" body)) as [t|]; [|reflexivity].
  cbn [andb negb toString].
  destruct (isNaN (parse_float q)), (isNaN (parse_float u)),
    (isNaN (parse_float t)); reflexivity.
Qed.

Lemma get_absent (k : string) (o : object) : o !! k = None -> get k o = VUndefined.
Proof. intros H. unfold get. rewrite H. reflexivity. Qed.

Lemma required_present_false (body : object) (k : string) :
  In k required_fields -> truthy (get k body) = false ->
  required_present body = false.
Proof.
  intros Hin Hk. unfold required_present.
  destruct (forallb _ required_fields) eqn:E; [|reflexivity].
  rewrite forallb_forall in E. rewrite (E k Hin) in Hk. discriminate.
Qed.

Lemma isNaN_nan (x : Num.number) : isNaN x = true -> x = Num.nan.
Proof. destruct x; simpl; intros H; try discriminate; reflexivity. Qed.

(** A value whose conversion returns parses to what [parsed] names. *)
Lemma parseFloat_converts (v : value) :
  converts v = true -> parseFloat v = Some (parsed v).
Proof.
  unfold converts, parsed, parseFloat.
  destruct (toString v); [reflexivity | discriminate].
Qed.

(** The three numbers of a body with valid numbers are parsed. *)
Lemma numbers_valid_parses (body : object) :
  numbers_valid body = true -> parses body = true.
Proof.
  unfold numbers_valid. intros H.
  apply andb_prop in H as [H _]. apply andb_prop in H as [H _].
  apply andb_prop in H as [H _]. exact H.
Qed.
(** ** create *)

(** C3. A create payload in which one of materialId, itemDescription,
    supplier, quantity, unitOfMeasurement, unitPrice, totalPrice, orderDate
    is missing or falsy is answered 400 "All fields are required."; the
    handler answers at once, without a call on the model, so whatever the
    collection holds stays as it is. *)
Theorem create_requires_all_fields (body : object) (k : string) :
  In k required_fields ->
  body !! k = None \/ truthy (get k body) = false ->
  create body = res 400 (Message "All fields are required.")
  /\ forall db : collection,
       run (create body) db =
       ({| status := 400; body := Message "All fields are required." |}, db).
Proof.
  intros Hin Hk.
  assert (Hf : truthy (get k body) = false).
  { destruct Hk as [Hk | Hk]; [|exact Hk]. rewrite (get_absent _ _ Hk). reflexivity. }
  assert (E : create body = res 400 (Message "All fields are required.")).
  { rewrite create_unfold, (required_present_false body k Hin Hf). reflexivity. }
  split; [exact E|]. intros db. rewrite E. reflexivity.
Qed.

Lemma create_requires_all_fields_witness :
  In "materialId" required_fields
  /\ Sample.bare_3_2505 !! "materialId" = None
  /\ create Sample.bare_3_2505 = res 400 (Message "All fields are required.").
Proof.
  split; [cbn; tauto|]. split; [evaluated|].
  apply (create_requires_all_fields Sample.bare_3_2505 "materialId").
  - cbn; tauto.
  - left. evaluated.
Defined.

(** C4, as the code has it. A create payload that passes the required-field
    check, on whose quantity, unitPrice and totalPrice [parseFloat] does not
    throw, and in which one of the three parses to NaN is answered 400
    "Quantity, Unit Price, and Total Price must be valid numbers."; no call
    is made on the model, so no record is stored. *)
Theorem create_rejects_nan (body : object) :
  required_present body = true ->
  parses body = true ->
  isNaN (parsed (get "quantity" body))
  || isNaN (parsed (get "unitPrice" body))
  || isNaN (parsed (get "totalPrice" body)) = true ->
  create body =
    res 400 (Message
      "Quantity, Unit Price, and Total Price must be valid numbers.")
  /\ forall db : collection,
       run (create body) db =
       ({| status := 400;
           body := Message
             "Quantity, Unit Price, and Total Price must be valid numbers." |},
        db).
Proof.
  intros Hreq Hp Hnan.
  assert (E : create body = res 400 (Message
            "Quantity, Unit Price, and Total Price must be valid numbers.")).
  { rewrite create_unfold, Hreq, Hp. cbn [negb].
    replace (numbers_valid body) with false; [reflexivity|].
    unfold numbers_valid. rewrite Hp.
    destruct (isNaN (parsed (get "quantity" body))),
      (isNaN (parsed (get "unitPrice" body))),
      (isNaN (parsed (get "totalPrice" body)));
      try reflexivity; discriminate Hnan. }
  split; [exact E|]. intros db. rewrite E. reflexivity.
Qed.

Lemma create_rejects_nan_witness :
  let body := Sample.priced (VStr "ten") (VStr "2.50") (VStr "25.00") Sample.described in
  required_present body = true
  /\ parses body = true
  /\ isNaN (parsed (get "quantity" body)) = true
  /\ create body =
       res 400 (Message
         "Quantity, Unit Price, and Total Price must be valid numbers.").
Proof.
  intros body. split; [evaluated|]. split; [evaluated|].
  split; [evaluated|].
  apply (create_rejects_nan body); evaluated.
Defined.

(** C4, as it is worded, fails where a [parseFloat] throws: with the
    required fields present, quantity "abc", which parses to NaN, and a unit
    price on which the conversion to a string throws, the [catch] answers
    500, not 400. *)
Lemma create_rejects_nan_counterexample :
  required_present Sample.order_abc_throws = true
  /\ parseFloat (get "quantity" Sample.order_abc_throws) = Some Num.nan
  /\ parseFloat (get "unitPrice" Sample.order_abc_throws) = None
  /\ create Sample.order_abc_throws =
       res 500 (Message "Server error. Please try again later.")
  /\ forall db : collection,
       status (fst (run (create Sample.order_abc_throws) db)) <> 400.
Proof.
  split; [evaluated|]. split; [evaluated|]. split; [evaluated|].
  assert (E : create Sample.order_abc_throws =
              res 500 (Message "Server error. Please try again later."))
    by evaluated.
  split; [exact E|]. intros db. rewrite E. cbn. discriminate.
Qed.

(** C1, as the code has it. A create payload whose required fields are all
    truthy, whose quantity, unitPrice and totalPrice parse to numbers, and
    for which the product of quantity and unitPrice, written with
    [toFixed(2)] and parsed again, is not the parsed totalPrice, is answered
    400 "Error in Total Price: Your total price is incorrect". For quantity
    3, unitPrice 2.505 and totalPrice 7.50 the product is the binary64
    number just below 7.515, [toFixed(2)] writes it as 7.51, and the answer
    is that 400. *)
Theorem create_total_mismatch :
  (forall body : object,
     required_present body = true ->
     numbers_valid body = true ->
     total_mismatch body = true ->
     create body =
       res 400 (Message "Error in Total Price: Your total price is incorrect"))
  /\ toFixed (Num.mul (parse_float "3") (parse_float "2.505")) 2
     = "7.51"
  /\ create Sample.order_3_2505 =
       res 400 (Message "Error in Total Price: Your total price is incorrect").
Proof.
  split; [|split; evaluated].
  intros body Hreq Hnum Hmis.
  rewrite create_unfold, Hreq, (numbers_valid_parses body Hnum), Hnum, Hmis.
  reflexivity.
Qed.

Lemma create_total_mismatch_witness :
  required_present Sample.order_3_2505 = true
  /\ numbers_valid Sample.order_3_2505 = true
  /\ total_mismatch Sample.order_3_2505 = true
  /\ create Sample.order_3_2505 =
       res 400 (Message "Error in Total Price: Your total price is incorrect").
Proof.
  split; [evaluated|].
  split; [evaluated|].
  split; [evaluated|].
  apply (proj1 create_total_mismatch Sample.order_3_2505);
    evaluated.
Defined.

(** C1, as it is worded, fails twice. The payload that carries only
    quantity 3, unitPrice 2.505 and totalPrice 7.50 has three numbers that
    parse and a rounded product that is not the total, yet it is answered
    "All fields are required.", not the total-price message. And the rounded
    product of 3 and 2.505 is 7.51, not 7.52. *)
Lemma create_total_mismatch_counterexample :
  numbers_valid Sample.bare_3_2505 = true
  /\ total_mismatch Sample.bare_3_2505 = true
  /\ create Sample.bare_3_2505 = res 400 (Message "All fields are required.")
  /\ create Sample.bare_3_2505 <>
       res 400 (Message "Error in Total Price: Your total price is incorrect")
  /\ rounded_total (parse_float "3") (parse_float "2.505")
     = parse_float "7.51"
  /\ Num.eqb (rounded_total (parse_float "3") (parse_float "2.505"))
             (parse_float "7.52") = false.
Proof.
  split; [evaluated|].
  split; [evaluated|].
  split; [evaluated|].
  split; [|split; evaluated].
  replace (create Sample.bare_3_2505)
    with (res 400 (Message "All fields are required."))
    by (evaluated).
  unfold res. intros H. inversion H.
Qed.

Lemma order_of_numbers (body : object) :
  order_of body !! "quantity" = Some (VNum (parsed (get "quantity" body)))
  /\ order_of body !! "unitPrice" = Some (VNum (parsed (get "unitPrice" body)))
  /\ order_of body !! "totalPrice" = Some (VNum (parsed (get "totalPrice" body)))
  /\ order_of body !! "status" =
     Some (if truthy (get "status" body) then get "status" body
           else VStr "Pending").
Proof.
  unfold order_of.
  generalize (get "materialId" body), (get "itemDescription" body),
    (get "supplier" body), (parsed (get "quantity" body)),
    (get "unitOfMeasurement" body), (parsed (get "unitPrice" body)),
    (parsed (get "totalPrice" body)), (get "orderDate" body),
    (get "items" body), (get "status" body).
  intros. repeat split; reflexivity.
Qed.

Lemma order_of_copied (body : object) (k : string) :
  In k ["materialId"; "itemDescription"; "supplier"; "unitOfMeasurement";
        "orderDate"; "items"] ->
  order_of body !! k = Some (get k body).
Proof.
  intros Hk. cbn in Hk. unfold order_of, new_order.
  destruct Hk as [<- | [<- | [<- | [<- | [<- | [<- | []]]]]]];
    repeat (rewrite lookup_insert_ne by discriminate);
    apply lookup_insert_eq.
Qed.

(** A body that passes the three checks is handed to the model, and the
    answer is 201 with the saved document, or 500 when saving fails. *)
Lemma create_valid (body : object) :
  valid_create body = true ->
  create body =
  Await (Save (order_of body)) (fun saved =>
    match saved with
    | Fulfilled order =>
        res 201 (MessageOrder "Material Request created successfully" order)
    | Rejected => res 500 (Message "Server error. Please try again later.")
    end).
Proof.
  unfold valid_create. intros H.
  apply andb_prop in H as [H Hm]. apply andb_prop in H as [Hr Hn].
  apply negb_true_iff in Hm.
  rewrite create_unfold, Hr, (numbers_valid_parses body Hn), Hn, Hm.
  reflexivity.
Qed.

Lemma run_create_valid (body : object) (db : collection) :
  valid_create body = true ->
  run (create body) db =
  ({| status := 201;
      body := MessageOrder "Material Request created successfully"
                {| doc_id := fresh (dom db); doc_fields := order_of body |} |},
   <[fresh (dom db) := order_of body]> db).
Proof. intros H. rewrite (create_valid body H). reflexivity. Qed.

(** C5, as the code has it. A create payload that passes all validation is
    persisted as a record whose quantity, unitPrice and totalPrice are the
    parsed numbers, whose other fields are the payload's, and whose status
    is the payload's status when that is truthy and "Pending" otherwise, so
    "Pending" when the payload has no status; the record is handed to the
    model to be saved, and when it is saved the answer is 201 with a message
    and the order. On the collection the record is stored under an
    identifier that no stored record had. *)
Theorem create_persists (body : object) (db : collection) :
  valid_create body = true ->
  let record := order_of body in
  let id := fresh (dom db) in
  (record !! "quantity" = Some (VNum (parsed (get "quantity" body)))
   /\ record !! "unitPrice" = Some (VNum (parsed (get "unitPrice" body)))
   /\ record !! "totalPrice" = Some (VNum (parsed (get "totalPrice" body)))
   /\ record !! "status" =
      Some (if truthy (get "status" body) then get "status" body
            else VStr "Pending"))
  /\ (body !! "status" = None -> record !! "status" = Some (VStr "Pending"))
  /\ (forall k : string,
        In k ["materialId"; "itemDescription"; "supplier";
              "unitOfMeasurement"; "orderDate"; "items"] ->
        record !! k = Some (get k body))
  /\ create body =
     Await (Save record) (fun saved =>
       match saved with
       | Fulfilled order =>
           res 201 (MessageOrder "Material Request created successfully" order)
       | Rejected => res 500 (Message "Server error. Please try again later.")
       end)
  /\ db !! id = None
  /\ run (create body) db =
     ({| status := 201;
         body := MessageOrder "Material Request created successfully"
                   {| doc_id := id; doc_fields := record |} |},
      <[id := record]> db).
Proof.
  intros Hv record id. subst record id.
  split; [exact (order_of_numbers body)|].
  split.
  { intros Hs.
    rewrite (proj2 (proj2 (proj2 (order_of_numbers body)))).
    rewrite (get_absent _ _ Hs). reflexivity. }
  split; [exact (order_of_copied body)|].
  split; [exact (create_valid body Hv)|].
  split; [apply not_elem_of_dom, is_fresh|].
  apply run_create_valid. exact Hv.
Qed.

Lemma create_persists_witness :
  valid_create Sample.order_10_250 = true
  /\ Sample.order_10_250 !! "status" = None
  /\ order_of Sample.order_10_250 !! "status" = Some (VStr "Pending")
  /\ order_of Sample.order_10_250 !! "totalPrice" = Some (Sample.num "25")
  /\ run (create Sample.order_10_250) ∅ =
     ({| status := 201;
         body := MessageOrder "Material Request created successfully"
                   {| doc_id := fresh (dom (∅ : collection));
                      doc_fields := order_of Sample.order_10_250 |} |},
      <[fresh (dom (∅ : collection)) := order_of Sample.order_10_250]> ∅).
Proof.
  split; [evaluated|]. split; [evaluated|].
  assert (H := create_persists Sample.order_10_250 ∅).
  destruct H as (_ & Hs & _ & _ & _ & Hrun); [evaluated|].
  split; [apply Hs; evaluated|].
  split; [evaluated | exact Hrun].
Defined.

(** C5, as it is worded, fails for a status that is present and falsy: the
    valid payload whose status is the empty string is persisted with the
    status "Pending", which is not the payload's status. *)
Lemma create_persists_counterexample :
  valid_create Sample.order_empty_status = true
  /\ Sample.order_empty_status !! "status" = Some (VStr "")
  /\ (forall fields : object,
        snd (run (create Sample.order_empty_status) ∅)
          !! fresh (dom (∅ : collection)) = Some fields ->
        fields !! "status" = Some (VStr "Pending")
        /\ fields !! "status" <> Sample.order_empty_status !! "status")
  /\ is_Some (snd (run (create Sample.order_empty_status) ∅)
                !! fresh (dom (∅ : collection))).
Proof.
  split; [evaluated|]. split; [evaluated|].
  assert (E : snd (run (create Sample.order_empty_status) ∅)
                !! fresh (dom (∅ : collection))
              = Some (order_of Sample.order_empty_status)) by evaluated.
  split.
  - intros fields. rewrite E. intros [= <-].
    assert (Hs : order_of Sample.order_empty_status !! "status"
                 = Some (VStr "Pending")) by evaluated.
    assert (Hp : Sample.order_empty_status !! "status" = Some (VStr ""))
      by evaluated.
    rewrite Hs, Hp. split; [reflexivity | discriminate].
  - rewrite E. eauto.
Qed.

(** C10. A create payload that passes validation and whose status is falsy,
    the empty string for one, is persisted with the status "Pending": the
    default is taken for every falsy status, present or not. *)
Theorem create_status_default (body : object) (db : collection) :
  valid_create body = true ->
  truthy (get "status" body) = false ->
  order_of body !! "status" = Some (VStr "Pending")
  /\ create body =
     Await (Save (order_of body)) (fun saved =>
       match saved with
       | Fulfilled order =>
           res 201 (MessageOrder "Material Request created successfully" order)
       | Rejected => res 500 (Message "Server error. Please try again later.")
       end)
  /\ run (create body) db =
     ({| status := 201;
         body := MessageOrder "Material Request created successfully"
                   {| doc_id := fresh (dom db); doc_fields := order_of body |} |},
      <[fresh (dom db) := order_of body]> db)
  /\ forall fields : object,
       <[fresh (dom db) := order_of body]> db !! fresh (dom db) = Some fields ->
       fields !! "status" = Some (VStr "Pending").
Proof.
  intros Hv Hs.
  assert (E : order_of body !! "status" = Some (VStr "Pending")).
  { rewrite (proj2 (proj2 (proj2 (order_of_numbers body)))), Hs.
    reflexivity. }
  split; [exact E|]. split; [exact (create_valid body Hv)|].
  split; [apply run_create_valid; exact Hv|].
  intros fields. rewrite lookup_insert_eq. intros [= <-]. exact E.
Qed.

Lemma create_status_default_witness :
  let body := <["status" := VStr ""]> Sample.order_10_250 in
  valid_create body = true
  /\ body !! "status" = Some (VStr "")
  /\ truthy (get "status" body) = false
  /\ order_of body !! "status" = Some (VStr "Pending").
Proof.
  intros body. split; [evaluated|].
  split; [evaluated|]. split; [evaluated|].
  apply (create_status_default body ∅); evaluated.
Defined.

(** ** update *)

Lemma parse_member_spec (k : string) (updates : object) :
  parse_member k updates =
  if truthy (get k updates) && negb (converts (get k updates)) then None
  else Some (with_parsed k updates).
Proof.
  unfold parse_member, with_parsed, converts, parsed, parseFloat.
  destruct (truthy (get k updates)); [|reflexivity].
  destruct (toString (get k updates)); reflexivity.
Qed.

Lemma with_parsed_lookup (k k' : string) (o : object) :
  with_parsed k' o !! k =
  if String.eqb k k' && truthy (get k o) then Some (VNum (parsed (get k o)))
  else o !! k.
Proof.
  unfold with_parsed.
  destruct (String.eqb_spec k k') as [->|Hne]; cbn [andb].
  - destruct (truthy (get k' o)); [apply lookup_insert_eq | reflexivity].
  - destruct (truthy (get k' o)); [|reflexivity].
    apply lookup_insert_ne. congruence.
Qed.

Lemma get_with_parsed (k k' : string) (o : object) :
  get k (with_parsed k' o) =
  if String.eqb k k' && truthy (get k o) then VNum (parsed (get k o))
  else get k o.
Proof.
  unfold get at 1. rewrite with_parsed_lookup.
  destruct (String.eqb k k' && truthy (get k o)); reflexivity.
Qed.

Lemma parsed_updates_lookup (k : string) (body : object) :
  parsed_updates body !! k =
  if is_numeric k && truthy (get k body)
  then Some (VNum (parsed (get k body)))
  else body !! k.
Proof.
  unfold parsed_updates, is_numeric.
  destruct (String.eqb_spec k "quantity") as [->|Hq];
    [|destruct (String.eqb_spec k "unitPrice") as [->|Hu];
      [|destruct (String.eqb_spec k "totalPrice") as [->|Ht]]];
    repeat (rewrite ?with_parsed_lookup, ?get_with_parsed; eval_names).
  - destruct (truthy (get "quantity" body)); reflexivity.
  - destruct (truthy (get "unitPrice" body)); reflexivity.
  - destruct (truthy (get "totalPrice" body)); reflexivity.
  - destruct (String.eqb_spec k "quantity"); [contradiction|].
    destruct (String.eqb_spec k "unitPrice"); [contradiction|].
    destruct (String.eqb_spec k "totalPrice"); [contradiction|].
    reflexivity.
Qed.

Lemma get_parsed_updates (k : string) (body : object) :
  get k (parsed_updates body) =
  if is_numeric k && truthy (get k body) then VNum (parsed (get k body))
  else get k body.
Proof.
  unfold get at 1. rewrite parsed_updates_lookup.
  destruct (is_numeric k && truthy (get k body)); reflexivity.
Qed.

(** A member that is truthy after the parsing statements was truthy in the
    payload. *)
Lemma truthy_parsed_updates (k : string) (body : object) :
  truthy (get k (parsed_updates body)) = true -> truthy (get k body) = true.
Proof.
  rewrite get_parsed_updates.
  destruct (is_numeric k); cbn [andb]; [|intros H; exact H].
  destruct (truthy (get k body)) eqn:E; [reflexivity | rewrite E; intros H; exact H].
Qed.

(** A parsed member that is truthy after the parsing statements is the
    number its payload value parses to: the operands of the product in
    [update] are numbers. *)
Lemma update_operands_numbers (k : string) (body : object) :
  is_numeric k = true ->
  truthy (get k (parsed_updates body)) = true ->
  get k (parsed_updates body) = VNum (parsed (get k body)).
Proof.
  intros Hk Ht. pose proof (truthy_parsed_updates k body Ht) as Hb.
  rewrite get_parsed_updates, Hk, Hb. reflexivity.
Qed.

(** A parsed member that is truthy after the parsing statements is one on
    which [parseFloat] has not thrown. *)
Lemma truthy_parsed_converts (k : string) (body : object) :
  is_numeric k = true ->
  truthy (get k (parsed_updates body)) = true ->
  converts (get k body) = true.
Proof.
  intros Hk Ht. rewrite (update_operands_numbers k body Hk Ht) in Ht.
  unfold parsed, parseFloat, converts in *.
  destruct (toString (get k body)); [reflexivity | discriminate Ht].
Qed.

Lemma update_parses_alt (body : object) :
  update_parses body =
  negb (truthy (get "quantity" body) && negb (converts (get "quantity" body)))
  && negb (truthy (get "unitPrice" body) && negb (converts (get "unitPrice" body)))
  && negb (truthy (get "totalPrice" body) && negb (converts (get "totalPrice" body))).
Proof.
  unfold update_parses. cbn [forallb].
  destruct (truthy (get "quantity" body)), (converts (get "quantity" body)),
    (truthy (get "unitPrice" body)), (converts (get "unitPrice" body)),
    (truthy (get "totalPrice" body)), (converts (get "totalPrice" body));
    reflexivity.
Qed.

(** When the comparison is reached no [parseFloat] has thrown. *)
Lemma recheck_fires_parses (body : object) :
  recheck_fires body = true -> update_parses body = true.
Proof.
  unfold recheck_fires. intros H.
  apply andb_prop in H as [H Ht]. apply andb_prop in H as [Hq Hu].
  rewrite update_parses_alt,
    (truthy_parsed_converts "quantity" body eq_refl Hq),
    (truthy_parsed_converts "unitPrice" body eq_refl Hu),
    (truthy_parsed_converts "totalPrice" body eq_refl Ht).
  rewrite !andb_false_r. reflexivity.
Qed.

Lemma update_unfold (id : string) (body : object) :
  update id body =
  if negb (update_parses body) then
    res 500 (Message "Server error. Please try again later.")
  else if recheck_fires body && recheck_mismatch body then
    res 400 (Message "Error in Total Price: Your total price is incorrect.")
  else forward id (parsed_updates body).
Proof.
  rewrite update_parses_alt. unfold update. cbv zeta.
  rewrite parse_member_spec.
  destruct (truthy (get "quantity" body) && negb (converts (get "quantity" body)));
    [reflexivity|].
  cbn [attempt negb andb]. rewrite parse_member_spec.
  repeat (rewrite ?get_with_parsed; eval_names).
  destruct (truthy (get "unitPrice" body) && negb (converts (get "unitPrice" body)));
    [reflexivity|].
  cbn [attempt negb andb]. rewrite parse_member_spec.
  repeat (rewrite ?get_with_parsed; eval_names).
  destruct (truthy (get "totalPrice" body) && negb (converts (get "totalPrice" body)));
    [reflexivity|].
  cbn [attempt negb andb].
  fold (parsed_updates body). unfold recheck_fires, recheck_mismatch, forward.
  destruct (truthy (get "quantity" (parsed_updates body))) eqn:Hq;
    [|reflexivity].
  destruct (truthy (get "unitPrice" (parsed_updates body))) eqn:Hu;
    [|reflexivity].
  rewrite (update_operands_numbers "quantity" body eq_refl Hq),
    (update_operands_numbers "unitPrice" body eq_refl Hu).
  cbn [andb times toNumber attempt parseFloat toString].
  destruct (truthy (get "totalPrice" (parsed_updates body))); reflexivity.
Qed.

(** When the comparison of [update] is reached it is the comparison of
    [create] on the same three members. *)
Lemma recheck_mismatch_total (body : object) :
  recheck_fires body = true -> recheck_mismatch body = total_mismatch body.
Proof.
  unfold recheck_fires, recheck_mismatch, total_mismatch, rounded_total.
  intros H. apply andb_prop in H as [H Ht]. apply andb_prop in H as [Hq Hu].
  rewrite (update_operands_numbers "quantity" body eq_refl Hq),
    (update_operands_numbers "unitPrice" body eq_refl Hu),
    (update_operands_numbers "totalPrice" body eq_refl Ht).
  reflexivity.
Qed.

Lemma run_forward_found (id : string) (updates fields : object) (db : collection) :
  db !! id = Some fields ->
  run (forward id updates) db =
  ({| status := 200;
      body := MessageOrder "Material request updated successfully"
                {| doc_id := id; doc_fields := updates ∪ fields |} |},
   <[id := updates ∪ fields]> db).
Proof. intros H. unfold forward. cbn. rewrite H. reflexivity. Qed.

Lemma is_numeric_cases (k : string) :
  is_numeric k = true -> k = "quantity" \/ k = "unitPrice" \/ k = "totalPrice".
Proof.
  unfold is_numeric.
  destruct (String.eqb_spec k "quantity"); [tauto|].
  destruct (String.eqb_spec k "unitPrice"); [tauto|].
  destruct (String.eqb_spec k "totalPrice"); [tauto|].
  discriminate.
Qed.

(** The comparison is not reached when one of the three members is falsy
    after the parsing statements. *)
Lemma recheck_needs (k : string) (body : object) :
  is_numeric k = true ->
  truthy (get k (parsed_updates body)) = false ->
  recheck_fires body = false.
Proof.
  intros Hk Hf. unfold recheck_fires.
  destruct (is_numeric_cases k Hk) as [-> | [-> | ->]]; rewrite Hf.
  - reflexivity.
  - apply andb_false_intro1, andb_false_r.
  - apply andb_false_r.
Qed.

(** An update that throws, or that the comparison rejects, stores
    nothing. *)
Lemma run_update_stopped (id : string) (body : object) (db : collection) :
  update_parses body = false
  \/ recheck_fires body && recheck_mismatch body = true ->
  snd (run (update id body) db) = db.
Proof.
  rewrite update_unfold. intros [-> | H]; [reflexivity|].
  rewrite H. destruct (negb (update_parses body)); reflexivity.
Qed.

(** C2, as the code has it. The comparison of update is reached only when
    quantity, unitPrice and totalPrice are all truthy in the payload; when
    it is reached and finds a mismatch the answer is 400 with the message
    "Error in Total Price: Your total price is incorrect." (the message of
    create followed by a full stop); in every other case in which no
    [parseFloat] throws the payload goes on to the model. The payload
    [{quantity: 5, unitPrice: 4}] does not reach the comparison and is not
    answered 400. *)
Theorem update_recheck (id : string) (body : object) :
  (recheck_fires body = true ->
     truthy (get "quantity" body) && truthy (get "unitPrice" body)
     && truthy (get "totalPrice" body) = true)
  /\ (recheck_fires body = true -> recheck_mismatch body = true ->
        update id body =
        res 400 (Message "Error in Total Price: Your total price is incorrect."))
  /\ (update_parses body = true ->
      recheck_fires body = false \/ recheck_mismatch body = false ->
        update id body = forward id (parsed_updates body))
  /\ recheck_fires Sample.update_5_4 = false
  /\ update id Sample.update_5_4 = forward id Sample.update_5_4.
Proof.
  split; [|split; [|split; [|split]]].
  - unfold recheck_fires. intros H.
    apply andb_prop in H as [H Ht]. apply andb_prop in H as [Hq Hu].
    rewrite (truthy_parsed_updates _ _ Hq), (truthy_parsed_updates _ _ Hu),
      (truthy_parsed_updates _ _ Ht). reflexivity.
  - intros Hf Hm.
    rewrite update_unfold, (recheck_fires_parses body Hf), Hf, Hm. reflexivity.
  - intros Hp H. rewrite update_unfold, Hp. cbn [negb].
    destruct H as [-> | ->]; [reflexivity|].
    rewrite andb_false_r. reflexivity.
  - evaluated.
  - rewrite update_unfold.
    replace (update_parses Sample.update_5_4) with true by evaluated.
    replace (recheck_fires Sample.update_5_4) with false by evaluated.
    replace (parsed_updates Sample.update_5_4) with Sample.update_5_4
      by evaluated.
    reflexivity.
Qed.

Lemma update_recheck_witness :
  recheck_fires Sample.update_2_3_7 = true
  /\ recheck_mismatch Sample.update_2_3_7 = true
  /\ update "a" Sample.update_2_3_7 =
       res 400 (Message "Error in Total Price: Your total price is incorrect.").
Proof.
  split; [evaluated|]. split; [evaluated|].
  apply (proj1 (proj2 (update_recheck "a" Sample.update_2_3_7)));
    evaluated.
Defined.

(** C2, as it is worded, fails on the message: the triple 2, 3, 7 is
    answered by update with a message that ends in a full stop and by
    create, for the same three numbers, with one that does not. *)
Lemma update_recheck_counterexample :
  update "a" Sample.update_2_3_7 =
    res 400 (Message "Error in Total Price: Your total price is incorrect.")
  /\ create (Sample.priced (Sample.num "2") (Sample.num "3") (Sample.num "7")
               Sample.described) =
       res 400 (Message "Error in Total Price: Your total price is incorrect")
  /\ update "a" Sample.update_2_3_7 <>
       res 400 (Message "Error in Total Price: Your total price is incorrect").
Proof.
  split; [evaluated|]. split; [evaluated|].
  replace (update "a" Sample.update_2_3_7)
    with (res 400 (Message "Error in Total Price: Your total price is incorrect."))
    by (evaluated).
  unfold res. intros H. inversion H.
Qed.

(** C6, as the code has it. An update payload in which quantity, unitPrice
    or totalPrice is a non-empty string that parses to NaN, and on whose
    quantity, unitPrice and totalPrice [parseFloat] does not throw: the
    member becomes NaN, no check looks at it, the payload goes on to the
    model with the NaN in it and no 400 is answered; on a stored record the
    NaN is stored and the answer is 200. *)
Theorem update_forwards_nan (id k s : string) (body : object) :
  is_numeric k = true ->
  body !! k = Some (VStr s) ->
  s <> "" ->
  isNaN (parse_float s) = true ->
  update_parses body = true ->
  parsed_updates body !! k = Some (VNum Num.nan)
  /\ update id body = forward id (parsed_updates body)
  /\ forall (db : collection) (fields : object),
       db !! id = Some fields ->
       exists stored : object,
         stored !! k = Some (VNum Num.nan)
         /\ run (update id body) db =
            ({| status := 200;
                body := MessageOrder "Material request updated successfully"
                          {| doc_id := id; doc_fields := stored |} |},
             <[id := stored]> db).
Proof.
  intros Hk Hb Hs Hnan Hp.
  assert (Hg : get k body = VStr s) by (unfold get; rewrite Hb; reflexivity).
  assert (Ht : truthy (get k body) = true).
  { rewrite Hg. destruct s; [contradiction | reflexivity]. }
  assert (Hl : parsed_updates body !! k = Some (VNum Num.nan)).
  { rewrite parsed_updates_lookup, Hk, Ht, Hg.
    change (parsed (VStr s)) with (parse_float s).
    rewrite (isNaN_nan _ Hnan). reflexivity. }
  assert (Hu : update id body = forward id (parsed_updates body)).
  { rewrite update_unfold, Hp, (recheck_needs k body Hk); [reflexivity|].
    unfold get. rewrite Hl. reflexivity. }
  split; [exact Hl|]. split; [exact Hu|].
  intros db fields Hdb. exists (parsed_updates body ∪ fields). split.
  - apply lookup_union_Some_l. exact Hl.
  - rewrite Hu. apply run_forward_found. exact Hdb.
Qed.

Lemma update_forwards_nan_witness :
  is_numeric "quantity" = true
  /\ Sample.update_dozen !! "quantity" = Some (VStr "a dozen")
  /\ isNaN (parse_float "a dozen") = true
  /\ update_parses Sample.update_dozen = true
  /\ parsed_updates Sample.update_dozen !! "quantity" = Some (VNum Num.nan)
  /\ update "a" Sample.update_dozen = forward "a" (parsed_updates Sample.update_dozen).
Proof.
  split; [reflexivity|]. split; [evaluated|].
  split; [evaluated|]. split; [evaluated|].
  assert (H := update_forwards_nan "a" "quantity" "a dozen" Sample.update_dozen).
  destruct H as (H1 & H2 & _).
  - reflexivity.
  - evaluated.
  - discriminate.
  - evaluated.
  - evaluated.
  - split; [exact H1 | exact H2].
Defined.

(** C6, as it is worded, fails where another [parseFloat] throws: with
    quantity "abc", a non-empty string that parses to NaN, and a unit price
    on which the conversion to a string throws, the [catch] answers 500 and
    nothing is handed to the model. *)
Lemma update_forwards_nan_counterexample :
  Sample.update_abc_throws !! "quantity" = Some (VStr "abc")
  /\ isNaN (parse_float "abc") = true
  /\ parseFloat (get "unitPrice" Sample.update_abc_throws) = None
  /\ update "a" Sample.update_abc_throws =
       res 500 (Message "Server error. Please try again later.")
  /\ run (update "a" Sample.update_abc_throws) Sample.one_record =
     ({| status := 500;
         body := Message "Server error. Please try again later." |},
      Sample.one_record).
Proof. repeat split; evaluated. Qed.

(** C9, as the code has it. An update payload whose quantity (or unitPrice)
    is falsy, the number 0 for one: the member is not parsed and the
    comparison is not reached; when [parseFloat] throws on none of the other
    members the payload goes on to the model whatever unitPrice and
    totalPrice are, and on a stored record the answer is 200 and the fields
    are stored as given. *)
Theorem update_falsy_operand (id k : string) (body : object) :
  k = "quantity" \/ k = "unitPrice" ->
  truthy (get k body) = false ->
  parsed_updates body !! k = body !! k
  /\ recheck_fires body = false
  /\ (update_parses body = true ->
      update id body = forward id (parsed_updates body)
      /\ forall (db : collection) (fields : object),
           db !! id = Some fields ->
           run (update id body) db =
           ({| status := 200;
               body := MessageOrder "Material request updated successfully"
                         {| doc_id := id;
                            doc_fields := parsed_updates body ∪ fields |} |},
            <[id := parsed_updates body ∪ fields]> db)).
Proof.
  intros Hk Hf.
  assert (Hn : is_numeric k = true) by (destruct Hk as [-> | ->]; reflexivity).
  assert (Hl : parsed_updates body !! k = body !! k).
  { rewrite parsed_updates_lookup, Hf, andb_false_r. reflexivity. }
  assert (Hr : recheck_fires body = false).
  { apply (recheck_needs k body Hn). unfold get. rewrite Hl. exact Hf. }
  split; [exact Hl|]. split; [exact Hr|]. intros Hp.
  assert (Hu : update id body = forward id (parsed_updates body)).
  { rewrite update_unfold, Hp, Hr. reflexivity. }
  split; [exact Hu|].
  intros db fields Hdb. rewrite Hu. apply run_forward_found. exact Hdb.
Qed.

Lemma update_falsy_operand_witness :
  truthy (get "quantity" Sample.update_0_4_999) = false
  /\ truthy (get "unitPrice" Sample.update_0_4_999) = true
  /\ truthy (get "totalPrice" Sample.update_0_4_999) = true
  /\ update_parses Sample.update_0_4_999 = true
  /\ total_mismatch Sample.update_0_4_999 = true
  /\ Sample.one_record !! "a" = Some Sample.stored
  /\ fst (run (update "a" Sample.update_0_4_999) Sample.one_record) =
     {| status := 200;
        body := MessageOrder "Material request updated successfully"
                  {| doc_id := "a";
                     doc_fields :=
                       parsed_updates Sample.update_0_4_999 ∪ Sample.stored |} |}.
Proof.
  split; [evaluated|]. split; [evaluated|].
  split; [evaluated|]. split; [evaluated|]. split; [evaluated|].
  split; [evaluated|].
  assert (H := update_falsy_operand "a" "quantity" Sample.update_0_4_999).
  destruct H as (_ & _ & H).
  - left. reflexivity.
  - evaluated.
  - destruct H as [_ H]; [evaluated|].
    rewrite (H Sample.one_record Sample.stored); [reflexivity|].
    evaluated.
Defined.

(** C9, as it is worded, fails where [parseFloat] throws on the total price:
    with quantity 0, unit price 4 and a truthy total price on which the
    conversion to a string throws, the update of a stored record is
    answered 500, not 200, and stores nothing. *)
Lemma update_falsy_operand_counterexample :
  truthy (get "quantity" Sample.update_0_4_throws) = false
  /\ truthy (get "unitPrice" Sample.update_0_4_throws) = true
  /\ truthy (get "totalPrice" Sample.update_0_4_throws) = true
  /\ Sample.one_record !! "a" = Some Sample.stored
  /\ run (update "a" Sample.update_0_4_throws) Sample.one_record =
     ({| status := 500;
         body := Message "Server error. Please try again later." |},
      Sample.one_record).
Proof. repeat split; evaluated. Qed.

(** C7, as the code has it. For a stored record and any update payload,
    every field that is absent from the payload is unchanged in the stored
    record after the update. When the total-price comparison does not
    reject the payload and [parseFloat] throws on none of its quantity,
    unitPrice and totalPrice, the answer is 200 with the record as it is
    after the update. *)
Theorem update_partial (id : string) (body fields : object) (db : collection) :
  db !! id = Some fields ->
  exists stored : object,
    snd (run (update id body) db) = <[id := stored]> db
    /\ (forall k : string, body !! k = None -> stored !! k = fields !! k)
    /\ (update_parses body = true ->
        recheck_fires body && recheck_mismatch body = false ->
        fst (run (update id body) db) =
        {| status := 200;
           body := MessageOrder "Material request updated successfully"
                     {| doc_id := id; doc_fields := stored |} |}).
Proof.
  intros Hdb.
  destruct (update_parses body) eqn:Hp;
    [destruct (recheck_fires body && recheck_mismatch body) eqn:Hok|].
  - exists fields. split; [|split].
    + rewrite run_update_stopped by (right; exact Hok).
      symmetry. apply insert_id. exact Hdb.
    + reflexivity.
    + discriminate.
  - exists (parsed_updates body ∪ fields).
    assert (E : run (update id body) db =
      ({| status := 200;
          body := MessageOrder "Material request updated successfully"
                    {| doc_id := id;
                       doc_fields := parsed_updates body ∪ fields |} |},
       <[id := parsed_updates body ∪ fields]> db)).
    { rewrite update_unfold, Hp, Hok. apply run_forward_found. exact Hdb. }
    rewrite E. split; [reflexivity|]. split; [|reflexivity].
    intros k Hk. apply lookup_union_r.
    rewrite parsed_updates_lookup, (get_absent _ _ Hk), andb_false_r. exact Hk.
  - exists fields. split; [|split].
    + rewrite run_update_stopped by (left; exact Hp).
      symmetry. apply insert_id. exact Hdb.
    + reflexivity.
    + discriminate.
Qed.

Lemma update_partial_witness :
  Sample.one_record !! "a" = Some Sample.stored
  /\ update_parses Sample.update_shipped = true
  /\ recheck_fires Sample.update_shipped && recheck_mismatch Sample.update_shipped
     = false
  /\ exists stored : object,
       snd (run (update "a" Sample.update_shipped) Sample.one_record)
       = <["a" := stored]> Sample.one_record
       /\ (forall k : string,
             Sample.update_shipped !! k = None ->
             stored !! k = Sample.stored !! k)
       /\ fst (run (update "a" Sample.update_shipped) Sample.one_record) =
          {| status := 200;
             body := MessageOrder "Material request updated successfully"
                       {| doc_id := "a"; doc_fields := stored |} |}.
Proof.
  split; [evaluated|]. split; [evaluated|]. split; [evaluated|].
  destruct (update_partial "a" Sample.update_shipped Sample.stored
              Sample.one_record) as (stored & H1 & H2 & H3); [evaluated|].
  exists stored. split; [exact H1|]. split; [exact H2|].
  apply H3; evaluated.
Defined.

(** C7, as it is worded, fails on the answer: on a stored record a payload
    that carries a subset of the fields with a wrong total is answered 400,
    and one with a status and a quantity on which [parseFloat] throws is
    answered 500; in both cases the stored record is left as it is. *)
Lemma update_partial_counterexample :
  Sample.one_record !! "a" = Some Sample.stored
  /\ run (update "a" Sample.update_2_3_7) Sample.one_record =
     ({| status := 400;
         body := Message "Error in Total Price: Your total price is incorrect." |},
      Sample.one_record)
  /\ run (update "a" Sample.update_shipped_throws) Sample.one_record =
     ({| status := 500;
         body := Message "Server error. Please try again later." |},
      Sample.one_record).
Proof. repeat split; evaluated. Qed.

(** ** delete and getById *)

(** C8. Deleting a stored record removes it and answers 200 "Material order
    deleted successfully", a message and no record; getById on the same
    identifier then answers 404 "Material order not found". Deleting an
    identifier that is not stored answers 404 "Material order not found"
    and leaves the collection as it is. *)
Theorem delete_then_get (id : string) (db : collection) :
  (forall fields : object,
     db !! id = Some fields ->
     run (delete_by_id id) db =
       ({| status := 200; body := Message "Material order deleted successfully" |},
        delete id db)
     /\ delete id db !! id = None
     /\ run (get_by_id id) (delete id db) =
        ({| status := 404; body := Message "Material order not found" |},
         delete id db))
  /\ (db !! id = None ->
      run (delete_by_id id) db =
        ({| status := 404; body := Message "Material order not found" |}, db)).
Proof.
  split.
  - intros fields Hdb. split; [|split].
    + cbn. rewrite Hdb. reflexivity.
    + apply lookup_delete_eq.
    + cbn. rewrite lookup_delete_eq. reflexivity.
  - intros Hdb. cbn. rewrite Hdb, (delete_id _ _ Hdb). reflexivity.
Qed.

Lemma delete_then_get_witness :
  Sample.one_record !! "a" = Some Sample.stored
  /\ run (delete_by_id "a") Sample.one_record =
       ({| status := 200; body := Message "Material order deleted successfully" |},
        delete "a" Sample.one_record)
  /\ run (get_by_id "a") (delete "a" Sample.one_record) =
       ({| status := 404; body := Message "Material order not found" |},
        delete "a" Sample.one_record)
  /\ run (delete_by_id "b") Sample.one_record =
       ({| status := 404; body := Message "Material order not found" |},
        Sample.one_record).
Proof.
  assert (H : Sample.one_record !! "a" = Some Sample.stored)
    by (evaluated).
  split; [exact H|].
  destruct (proj1 (delete_then_get "a" Sample.one_record) Sample.stored H)
    as (H1 & _ & H2).
  split; [exact H1|]. split; [exact H2|].
  apply (proj2 (delete_then_get "b" Sample.one_record)).
  evaluated.
Defined.

End Properties.

(** * Further properties of the handlers *)

Module Extra.

Import Js Route Storage Service Properties.

Local Open Scope string_scope.
Local Open Scope Z_scope.

(** ** Storage failures and status codes, for any storage *)

Lemma run_on_await {S A : Type} (perform : storage S) (c : call A)
    (k : settled A -> handler) (s : S) :
  run_on perform (Await c k) s =
  run_on perform (k (fst (perform A c s))) (snd (perform A c s)).
Proof. cbn. destruct (perform A c s). reflexivity. Qed.

(** The modelled collection is one such storage. *)
Lemma run_is_run_on (h : handler) (db : collection) :
  run h db = run_on (@perform) h db.
Proof.
  revert db. induction h as [r | A c k IH]; intros db; [reflexivity|].
  cbn. destruct (perform c db) as [r db']. apply IH.
Qed.

(** X1. Whatever the storage is, a handler whose call on the model is
    rejected answers 500 and nothing of the failure: "Server error" from
    listAll, getById and delete, "Server error. Please try again later."
    from update, when the recheck lets the payload through, and from create,
    when the payload is valid. *)
Theorem storage_failure_500 {S : Type} (perform : storage S) (s : S)
    (id : string) (body : object) :
  (fst (perform _ Find s) = Rejected ->
     fst (run_on perform list_all s) =
     {| status := 500; body := Message "Server error" |})
  /\ (fst (perform _ (FindById id) s) = Rejected ->
        fst (run_on perform (get_by_id id) s) =
        {| status := 500; body := Message "Server error" |})
  /\ (fst (perform _ (FindByIdAndDelete id) s) = Rejected ->
        fst (run_on perform (delete_by_id id) s) =
        {| status := 500; body := Message "Server error" |})
  /\ (recheck_fires body && recheck_mismatch body = false ->
      fst (perform _ (FindByIdAndUpdate id (parsed_updates body)) s) = Rejected ->
        fst (run_on perform (update id body) s) =
        {| status := 500; body := Message "Server error. Please try again later." |})
  /\ (valid_create body = true ->
      fst (perform _ (Save (order_of body)) s) = Rejected ->
        fst (run_on perform (create body) s) =
        {| status := 500; body := Message "Server error. Please try again later." |}).
Proof.
  repeat split.
  - intros H. unfold list_all. rewrite run_on_await, H. reflexivity.
  - intros H. unfold get_by_id. rewrite run_on_await, H. reflexivity.
  - intros H. unfold delete_by_id. rewrite run_on_await, H. reflexivity.
  - intros Hok H. rewrite update_unfold, Hok.
    destruct (negb (update_parses body)); [reflexivity|].
    unfold forward. rewrite run_on_await, H. reflexivity.
  - intros Hv H. rewrite (create_valid body Hv), run_on_await, H. reflexivity.
Qed.

Lemma storage_failure_500_witness :
  fst (unavailable _ (FindById "a") tt) = Rejected
  /\ fst (run_on unavailable (get_by_id "a") tt) =
     {| status := 500; body := Message "Server error" |}.
Proof.
  split; [reflexivity|].
  apply (storage_failure_500 unavailable tt "a" ∅). reflexivity.
Defined.

(** X2. Whatever the storage is and however its calls settle, create answers
    201, 400 or 500, update 200, 400, 404 or 500, getById and delete 200,
    404 or 500, and listAll 200 or 500. *)
Theorem status_codes {S : Type} (perform : storage S) (s : S)
    (id : string) (body : object) :
  In (status (fst (run_on perform (create body) s))) [201; 400; 500]
  /\ In (status (fst (run_on perform (update id body) s))) [200; 400; 404; 500]
  /\ In (status (fst (run_on perform (get_by_id id) s))) [200; 404; 500]
  /\ In (status (fst (run_on perform (delete_by_id id) s))) [200; 404; 500]
  /\ In (status (fst (run_on perform list_all s))) [200; 500].
Proof.
  repeat split.
  - rewrite create_unfold.
    destruct (required_present body), (parses body), (numbers_valid body),
      (total_mismatch body); cbn [negb]; try (cbn; tauto).
    rewrite run_on_await.
    destruct (fst (perform _ (Save (order_of body)) s)); cbn; tauto.
  - rewrite update_unfold.
    destruct (update_parses body); cbn [negb]; [|cbn; tauto].
    destruct (recheck_fires body && recheck_mismatch body); [cbn; tauto|].
    unfold forward. rewrite run_on_await.
    destruct (fst (perform _ (FindByIdAndUpdate id (parsed_updates body)) s))
      as [[d|]|]; cbn; tauto.
  - unfold get_by_id. rewrite run_on_await.
    destruct (fst (perform _ (FindById id) s)) as [[d|]|]; cbn; tauto.
  - unfold delete_by_id. rewrite run_on_await.
    destruct (fst (perform _ (FindByIdAndDelete id) s)) as [[d|]|]; cbn; tauto.
  - unfold list_all. rewrite run_on_await.
    destruct (fst (perform _ Find s)); cbn; tauto.
Qed.

(** X3. A 500 is answered only for a [parseFloat] that has thrown or for
    a rejected call: when create answers 500, either the required fields
    are present and [parseFloat] throws on quantity, unitPrice or
    totalPrice, or the payload is valid and the save was rejected; when
    update answers 500, either [parseFloat] throws on a truthy one of the
    three, or the payload was let through and the call was rejected; when
    getById, delete or listAll answers 500, its call was rejected. *)
Theorem server_error_only_on_failure {S : Type} (perform : storage S) (s : S)
    (id : string) (body : object) :
  (status (fst (run_on perform (create body) s)) = 500 ->
     (required_present body = true /\ parses body = false)
     \/ (valid_create body = true
         /\ fst (perform _ (Save (order_of body)) s) = Rejected))
  /\ (status (fst (run_on perform (update id body) s)) = 500 ->
        update_parses body = false
        \/ (update_parses body = true
            /\ recheck_fires body && recheck_mismatch body = false
            /\ fst (perform _ (FindByIdAndUpdate id (parsed_updates body)) s)
               = Rejected))
  /\ (status (fst (run_on perform (get_by_id id) s)) = 500 ->
        fst (perform _ (FindById id) s) = Rejected)
  /\ (status (fst (run_on perform (delete_by_id id) s)) = 500 ->
        fst (perform _ (FindByIdAndDelete id) s) = Rejected)
  /\ (status (fst (run_on perform list_all s)) = 500 ->
        fst (perform _ Find s) = Rejected).
Proof.
  repeat apply conj.
  - rewrite create_unfold. unfold valid_create.
    destruct (required_present body); cbn [negb andb]; [|cbn; discriminate].
    destruct (parses body); cbn [negb]; [|intros _; left; split; reflexivity].
    destruct (numbers_valid body), (total_mismatch body);
      cbn [negb andb]; try (cbn; discriminate).
    rewrite run_on_await.
    destruct (fst (perform _ (Save (order_of body)) s));
      cbn; [discriminate | auto].
  - rewrite update_unfold.
    destruct (update_parses body); cbn [negb]; [|intros _; left; reflexivity].
    destruct (recheck_fires body && recheck_mismatch body);
      [cbn; discriminate|].
    unfold forward. rewrite run_on_await.
    destruct (fst (perform _ (FindByIdAndUpdate id (parsed_updates body)) s))
      as [[d|]|]; cbn; [discriminate | discriminate | auto].
  - unfold get_by_id. rewrite run_on_await.
    destruct (fst (perform _ (FindById id) s)) as [[d|]|];
      cbn; [discriminate | discriminate | auto].
  - unfold delete_by_id. rewrite run_on_await.
    destruct (fst (perform _ (FindByIdAndDelete id) s)) as [[d|]|];
      cbn; [discriminate | discriminate | auto].
  - unfold list_all. rewrite run_on_await.
    destruct (fst (perform _ Find s)); cbn; [discriminate | auto].
Qed.

Lemma server_error_only_on_failure_witness :
  status (fst (run_on unavailable (delete_by_id "a") tt)) = 500
  /\ fst (unavailable _ (FindByIdAndDelete "a") tt) = Rejected.
Proof.
  split; [reflexivity|].
  apply (server_error_only_on_failure unavailable tt "a" ∅). reflexivity.
Defined.

(** X16. Whatever the storage is, a create payload with its required
    fields on which [parseFloat] throws for quantity, unitPrice or
    totalPrice, and an update payload on which it throws for a truthy one of
    them, are answered 500 "Server error. Please try again later." without
    a call on the model: the storage is left in the state it was in. *)
Theorem parse_failure_500 {S : Type} (perform : storage S) (s : S)
    (id : string) (body : object) :
  (required_present body = true -> parses body = false ->
     run_on perform (create body) s =
     ({| status := 500;
         body := Message "Server error. Please try again later." |}, s))
  /\ (update_parses body = false ->
        run_on perform (update id body) s =
        ({| status := 500;
            body := Message "Server error. Please try again later." |}, s)).
Proof.
  split.
  - intros Hr Hp. rewrite create_unfold, Hr, Hp. reflexivity.
  - intros Hp. rewrite update_unfold, Hp. reflexivity.
Qed.

Lemma parse_failure_500_witness :
  required_present Sample.order_abc_throws = true
  /\ parses Sample.order_abc_throws = false
  /\ update_parses Sample.update_shipped_throws = false
  /\ run_on unavailable (create Sample.order_abc_throws) tt =
     ({| status := 500;
         body := Message "Server error. Please try again later." |}, tt)
  /\ run_on unavailable (update "a" Sample.update_shipped_throws) tt =
     ({| status := 500;
         body := Message "Server error. Please try again later." |}, tt).
Proof.
  split; [evaluated|]. split; [evaluated|]. split; [evaluated|]. split.
  - apply (proj1 (parse_failure_500 unavailable tt "a" Sample.order_abc_throws));
      evaluated.
  - apply (proj2 (parse_failure_500 unavailable tt "a"
                    Sample.update_shipped_throws)).
    evaluated.
Defined.

(** ** On the collection *)

Lemma run_get_by_id (id : string) (db : collection) :
  run (get_by_id id) db =
  (match db !! id with
   | Some fields =>
       {| status := 200; body := Order {| doc_id := id; doc_fields := fields |} |}
   | None => {| status := 404; body := Message "Material order not found" |}
   end, db).
Proof. cbn. destruct (db !! id); reflexivity. Qed.

(** X4. An update of an identifier that is not stored, with a payload on
    which [parseFloat] does not throw and that the recheck lets through,
    answers 404 "Material request not found" and leaves the collection as it
    is. *)
Theorem update_unknown_id (id : string) (body : object) (db : collection) :
  db !! id = None ->
  update_parses body = true ->
  recheck_fires body && recheck_mismatch body = false ->
  run (update id body) db =
  ({| status := 404; body := Message "Material request not found" |}, db).
Proof.
  intros Hdb Hp Hok. rewrite update_unfold, Hp, Hok. unfold forward. cbn.
  rewrite Hdb. reflexivity.
Qed.

Lemma update_unknown_id_witness :
  Sample.one_record !! "b" = None
  /\ update_parses Sample.update_shipped = true
  /\ recheck_fires Sample.update_shipped && recheck_mismatch Sample.update_shipped
     = false
  /\ run (update "b" Sample.update_shipped) Sample.one_record =
     ({| status := 404; body := Message "Material request not found" |},
      Sample.one_record).
Proof.
  split; [evaluated|]. split; [evaluated|]. split; [evaluated|].
  apply (update_unknown_id "b" Sample.update_shipped Sample.one_record);
    evaluated.
Defined.

(** X5. listAll answers 200 with the stored records, all of them and each
    once: a document is in the answer exactly when its fields are stored
    under its identifier, no identifier comes twice, there are as many
    documents as stored records, and the collection is left as it is. *)
Theorem list_all_complete (db : collection) :
  exists orders : list document,
    run list_all db = ({| status := 200; body := Orders orders |}, db)
    /\ (forall (i : string) (f : object),
          In {| doc_id := i; doc_fields := f |} orders <-> db !! i = Some f)
    /\ NoDup (map doc_id orders)
    /\ length orders = size db.
Proof.
  eexists. split; [reflexivity|]. split; [|split].
  - intros i f. rewrite in_map_iff. split.
    + intros [[j g] [[= -> ->] Hin]].
      apply elem_of_map_to_list, list_elem_of_In. exact Hin.
    + intros H. exists (i, f). split; [reflexivity|].
      apply list_elem_of_In, elem_of_map_to_list. exact H.
  - rewrite map_map. cbn.
    replace (map (fun x : string * object => x.1) (map_to_list db))
      with ((map_to_list db).*1).
    + apply NoDup_fst_map_to_list.
    + induction (map_to_list db) as [|x l IH]; [reflexivity|].
      cbn. rewrite IH. reflexivity.
  - rewrite length_map. apply length_map_to_list.
Qed.

(** X6. A record that create has stored is what getById answers for the
    identifier create gave it, and the create changed no other record. *)
Theorem create_then_get (body : object) (db : collection) :
  valid_create body = true ->
  exists (id : string) (db' : collection),
    run (create body) db =
      ({| status := 201;
          body := MessageOrder "Material Request created successfully"
                    {| doc_id := id; doc_fields := order_of body |} |}, db')
    /\ run (get_by_id id) db' =
       ({| status := 200;
           body := Order {| doc_id := id; doc_fields := order_of body |} |}, db')
    /\ forall (j : string) (fields : object),
         db !! j = Some fields -> db' !! j = Some fields.
Proof.
  intros Hv. exists (fresh (dom db)), (<[fresh (dom db) := order_of body]> db).
  split; [apply run_create_valid; exact Hv|]. split.
  - rewrite run_get_by_id, lookup_insert_eq. reflexivity.
  - intros j fields Hj. rewrite lookup_insert_ne; [exact Hj|].
    intros <-. pose proof (is_fresh (dom db)) as Hf.
    apply not_elem_of_dom in Hf. congruence.
Qed.

Lemma create_then_get_witness :
  valid_create Sample.order_10_250 = true
  /\ exists (id : string) (db' : collection),
       run (create Sample.order_10_250) Sample.one_record =
         ({| status := 201;
             body := MessageOrder "Material Request created successfully"
                       {| doc_id := id;
                          doc_fields := order_of Sample.order_10_250 |} |}, db')
       /\ run (get_by_id id) db' =
          ({| status := 200;
              body := Order {| doc_id := id;
                               doc_fields := order_of Sample.order_10_250 |} |},
           db')
       /\ forall (j : string) (fields : object),
            Sample.one_record !! j = Some fields -> db' !! j = Some fields.
Proof.
  split; [evaluated|].
  apply (create_then_get Sample.order_10_250 Sample.one_record). evaluated.
Defined.

(** X7. A create payload that fails a check changes nothing in the
    collection and is answered 400, or 500 when the required fields are
    present and [parseFloat] throws on quantity, unitPrice or totalPrice; a
    valid one is answered 201 and adds exactly one record. *)
Theorem create_stores_iff_valid (body : object) (db : collection) :
  (valid_create body = false ->
     exists (code : Z) (message : string),
       run (create body) db = ({| status := code; body := Message message |}, db)
       /\ (code = 400 \/ code = 500)
       /\ (code = 500 <-> required_present body = true /\ parses body = false))
  /\ (valid_create body = true ->
        status (fst (run (create body) db)) = 201
        /\ size (snd (run (create body) db)) = S (size db)).
Proof.
  split.
  - unfold valid_create. rewrite create_unfold.
    destruct (required_present body) eqn:Hr; cbn [negb andb].
    + destruct (parses body) eqn:Hp; cbn [negb].
      * destruct (numbers_valid body), (total_mismatch body);
          cbn [negb andb]; intros H; try discriminate H;
          do 2 eexists; (split; [reflexivity|]);
          (split; [left; reflexivity|]);
          (split; [discriminate | intros [_ ?]; discriminate]).
      * intros _. do 2 eexists. split; [reflexivity|].
        split; [right; reflexivity|]. split; [split|]; reflexivity.
    + intros _. do 2 eexists. split; [reflexivity|].
      split; [left; reflexivity|].
      split; [discriminate | intros [? _]; discriminate].
  - intros Hv. rewrite (run_create_valid body db Hv). split; [reflexivity|].
    cbn [snd]. apply map_size_insert_None, not_elem_of_dom, is_fresh.
Qed.

Lemma create_stores_iff_valid_witness :
  valid_create Sample.order_3_2505 = false
  /\ valid_create Sample.order_10_250 = true
  /\ (exists (code : Z) (message : string),
        run (create Sample.order_3_2505) Sample.one_record =
        ({| status := code; body := Message message |}, Sample.one_record)
        /\ (code = 400 \/ code = 500))
  /\ size (snd (run (create Sample.order_10_250) Sample.one_record))
     = S (size Sample.one_record).
Proof.
  split; [evaluated|]. split; [evaluated|]. split.
  - destruct (proj1 (create_stores_iff_valid Sample.order_3_2505
                       Sample.one_record)) as (code & message & H1 & H2 & _);
      [evaluated|].
    exists code, message. split; assumption.
  - apply (proj2 (create_stores_iff_valid Sample.order_10_250 Sample.one_record)).
    evaluated.
Defined.

(** ** update and create *)

Lemma parses_update_parses (body : object) :
  parses body = true -> update_parses body = true.
Proof.
  unfold parses. intros H.
  apply andb_prop in H as [H Ht]. apply andb_prop in H as [Hq Hu].
  rewrite update_parses_alt, Hq, Hu, Ht, !andb_false_r. reflexivity.
Qed.

(** X8. When update reaches its comparison, it rejects exactly the payloads
    whose three numbers create would reject for their total; so update lets
    through every payload that create accepts. *)
Theorem update_agrees_with_create (id : string) (body : object) :
  (recheck_fires body = true ->
     numbers_valid body = true
     /\ (update id body =
           res 400 (Message "Error in Total Price: Your total price is incorrect.")
         <-> total_mismatch body = true))
  /\ (valid_create body = true ->
        update id body = forward id (parsed_updates body)).
Proof.
  split.
  - intros Hf. pose proof (recheck_mismatch_total body Hf) as Hm. split.
    + unfold recheck_fires in Hf.
      apply andb_prop in Hf as [Hf Ht]. apply andb_prop in Hf as [Hq Hu].
      pose proof (update_operands_numbers "quantity" body eq_refl Hq) as Eq.
      pose proof (update_operands_numbers "unitPrice" body eq_refl Hu) as Eu.
      pose proof (update_operands_numbers "totalPrice" body eq_refl Ht) as Et.
      unfold numbers_valid, parses, isNaN.
      rewrite (truthy_parsed_converts "quantity" body eq_refl Hq),
        (truthy_parsed_converts "unitPrice" body eq_refl Hu),
        (truthy_parsed_converts "totalPrice" body eq_refl Ht).
      rewrite Eq in Hq. rewrite Eu in Hu. rewrite Et in Ht.
      cbn [truthy] in Hq, Hu, Ht.
      apply negb_true_iff, orb_false_elim in Hq as [_ ->].
      apply negb_true_iff, orb_false_elim in Hu as [_ ->].
      apply negb_true_iff, orb_false_elim in Ht as [_ ->].
      reflexivity.
    + rewrite update_unfold, (recheck_fires_parses body Hf), Hf, Hm.
      cbn [andb negb].
      destruct (total_mismatch body); split; intros H;
        try reflexivity; discriminate H.
  - unfold valid_create. intros H.
    apply andb_prop in H as [H Hm]. apply andb_prop in H as [_ Hn].
    apply negb_true_iff in Hm.
    rewrite update_unfold, (parses_update_parses body (numbers_valid_parses body Hn)).
    cbn [negb].
    destruct (recheck_fires body) eqn:Hf; [|reflexivity].
    rewrite (recheck_mismatch_total body Hf), Hm. reflexivity.
Qed.

Lemma update_agrees_with_create_witness :
  recheck_fires Sample.update_2_3_7 = true
  /\ total_mismatch Sample.update_2_3_7 = true
  /\ valid_create Sample.order_10_250 = true
  /\ update "a" Sample.update_2_3_7 =
       res 400 (Message "Error in Total Price: Your total price is incorrect.")
  /\ update "a" Sample.order_10_250 =
       forward "a" (parsed_updates Sample.order_10_250).
Proof.
  split; [evaluated|]. split; [evaluated|]. split; [evaluated|]. split.
  - apply (proj1 (update_agrees_with_create "a" Sample.update_2_3_7));
      evaluated.
  - apply (proj2 (update_agrees_with_create "a" Sample.order_10_250)).
    evaluated.
Defined.

(** X9. An update of a stored record on which [parseFloat] does not throw
    and that the recheck lets through stores every member of the payload:
    quantity, unitPrice and totalPrice as the number they parse to when they
    are truthy, every other member, whatever its name, as it was given. *)
Theorem update_overwrites (id : string) (body fields : object) (db : collection) :
  db !! id = Some fields ->
  update_parses body = true ->
  recheck_fires body && recheck_mismatch body = false ->
  exists stored : object,
    snd (run (update id body) db) !! id = Some stored
    /\ forall (k : string) (v : value),
         body !! k = Some v ->
         stored !! k =
         Some (if is_numeric k && truthy v then VNum (parsed v) else v).
Proof.
  intros Hdb Hp Hok. exists (parsed_updates body ∪ fields). split.
  - rewrite update_unfold, Hp, Hok. cbn [negb].
    rewrite (run_forward_found _ _ _ _ Hdb). apply lookup_insert_eq.
  - intros k v Hk. apply lookup_union_Some_l.
    rewrite parsed_updates_lookup. unfold get. rewrite Hk.
    change (default VUndefined (Some v)) with v.
    destruct (is_numeric k && truthy v); reflexivity.
Qed.

Lemma update_overwrites_witness :
  Sample.one_record !! "a" = Some Sample.stored
  /\ update_parses Sample.update_shipped = true
  /\ recheck_fires Sample.update_shipped && recheck_mismatch Sample.update_shipped
     = false
  /\ exists stored : object,
       snd (run (update "a" Sample.update_shipped) Sample.one_record) !! "a"
       = Some stored
       /\ forall (k : string) (v : value),
            Sample.update_shipped !! k = Some v ->
            stored !! k =
            Some (if is_numeric k && truthy v then VNum (parsed v) else v).
Proof.
  split; [evaluated|]. split; [evaluated|]. split; [evaluated|].
  apply (update_overwrites "a" Sample.update_shipped Sample.stored
           Sample.one_record); evaluated.
Defined.

(** X10. update never adds or removes a record and never touches another
    one: whatever the payload and the identifier, the stored identifiers are
    the same afterwards and every record under another identifier is as it
    was. *)
Theorem update_never_creates (id : string) (body : object) (db : collection) :
  dom (snd (run (update id body) db)) = dom db
  /\ forall j : string, j <> id -> snd (run (update id body) db) !! j = db !! j.
Proof.
  rewrite update_unfold.
  destruct (negb (update_parses body)); [split; reflexivity|].
  destruct (recheck_fires body && recheck_mismatch body);
    [split; reflexivity|].
  unfold forward. cbn. destruct (db !! id) as [fields|] eqn:Hdb; cbn.
  - split.
    + apply dom_insert_lookup_L. rewrite Hdb. eauto.
    + intros j Hj. apply lookup_insert_ne. congruence.
  - split; reflexivity.
Qed.

(** X11. delete touches no other record, and deleting twice is deleting
    once: the second delete answers 404 and changes nothing. *)
Theorem delete_isolated (id : string) (db : collection) :
  (forall j : string, j <> id -> snd (run (delete_by_id id) db) !! j = db !! j)
  /\ run (delete_by_id id) (snd (run (delete_by_id id) db)) =
     ({| status := 404; body := Message "Material order not found" |},
      snd (run (delete_by_id id) db)).
Proof.
  assert (E : snd (run (delete_by_id id) db) = delete id db).
  { cbn. destruct (db !! id); reflexivity. }
  rewrite E. split.
  - intros j Hj. apply lookup_delete_ne. congruence.
  - cbn. rewrite lookup_delete_eq. cbn. rewrite delete_delete_eq. reflexivity.
Qed.

(** X12. After an update of a stored record on which [parseFloat] does not
    throw and that the recheck lets through, getById answers 200 with the
    record as update answered it. *)
Theorem update_then_get (id : string) (body fields : object) (db : collection) :
  db !! id = Some fields ->
  update_parses body = true ->
  recheck_fires body && recheck_mismatch body = false ->
  exists (order : document) (db' : collection),
    run (update id body) db =
      ({| status := 200;
          body := MessageOrder "Material request updated successfully" order |},
       db')
    /\ run (get_by_id id) db' = ({| status := 200; body := Order order |}, db').
Proof.
  intros Hdb Hp Hok.
  exists {| doc_id := id; doc_fields := parsed_updates body ∪ fields |},
    (<[id := parsed_updates body ∪ fields]> db).
  split.
  - rewrite update_unfold, Hp, Hok. apply run_forward_found. exact Hdb.
  - rewrite run_get_by_id, lookup_insert_eq. reflexivity.
Qed.

Lemma update_then_get_witness :
  Sample.one_record !! "a" = Some Sample.stored
  /\ update_parses Sample.update_5_4 = true
  /\ recheck_fires Sample.update_5_4 && recheck_mismatch Sample.update_5_4 = false
  /\ exists (order : document) (db' : collection),
       run (update "a" Sample.update_5_4) Sample.one_record =
         ({| status := 200;
             body := MessageOrder "Material request updated successfully" order |},
          db')
       /\ run (get_by_id "a") db' = ({| status := 200; body := Order order |}, db').
Proof.
  split; [evaluated|]. split; [evaluated|]. split; [evaluated|].
  apply (update_then_get "a" Sample.update_5_4 Sample.stored Sample.one_record);
    evaluated.
Defined.

(** ** The record create builds *)

(** X13. The record create hands to the model has its ten fields and no
    other: a member of the payload under any other name is not stored. *)
Theorem created_record_fields (body : object) (k : string) :
  is_Some (order_of body !! k) <->
  In k ["materialId"; "itemDescription"; "supplier"; "quantity";
        "unitOfMeasurement"; "unitPrice"; "totalPrice"; "orderDate";
        "items"; "status"].
Proof.
  rewrite <- elem_of_dom. unfold order_of, new_order.
  rewrite !dom_insert_L, dom_empty_L. cbn [In].
  rewrite !elem_of_union, !elem_of_singleton, elem_of_empty.
  intuition congruence.
Qed.

(** X14. The record of a valid create keeps what the checks established:
    its five descriptive fields and its status are truthy, its three numbers
    are not NaN, and its totalPrice is the product of quantity and unitPrice
    as [toFixed(2)] rounds it. *)
Theorem created_record_invariant (body : object) :
  valid_create body = true ->
  exists q u t : Num.number,
    order_of body !! "quantity" = Some (VNum q)
    /\ order_of body !! "unitPrice" = Some (VNum u)
    /\ order_of body !! "totalPrice" = Some (VNum t)
    /\ isNaN q = false /\ isNaN u = false /\ isNaN t = false
    /\ Num.eqb (rounded_total q u) t = true
    /\ truthy (get "status" (order_of body)) = true
    /\ forall k : string,
         In k ["materialId"; "itemDescription"; "supplier";
               "unitOfMeasurement"; "orderDate"] ->
         truthy (get k (order_of body)) = true.
Proof.
  unfold valid_create. intros H.
  apply andb_prop in H as [H Hm]. apply andb_prop in H as [Hr Hn].
  destruct (order_of_numbers body) as (Hq & Hu & Ht & Hs).
  exists (parsed (get "quantity" body)), (parsed (get "unitPrice" body)),
    (parsed (get "totalPrice" body)).
  split; [exact Hq|]. split; [exact Hu|]. split; [exact Ht|].
  unfold numbers_valid in Hn.
  apply andb_prop in Hn as [Hn Hn3]. apply andb_prop in Hn as [Hn Hn2].
  apply andb_prop in Hn as [_ Hn1].
  apply negb_true_iff in Hn1, Hn2, Hn3.
  split; [exact Hn1|]. split; [exact Hn2|]. split; [exact Hn3|].
  split.
  { unfold total_mismatch, strict_neq in Hm.
    apply negb_true_iff, negb_false_iff in Hm. exact Hm. }
  split.
  { unfold get. rewrite Hs.
    change (default VUndefined (Some ?x)) with x.
    destruct (truthy (get "status" body)) eqn:E; [exact E | reflexivity]. }
  intros k Hk. unfold get at 1. rewrite order_of_copied.
  - change (default VUndefined (Some (get k body))) with (get k body).
    unfold required_present in Hr. rewrite forallb_forall in Hr.
    apply Hr. unfold required_fields. cbn in Hk |- *. tauto.
  - cbn in Hk |- *. tauto.
Qed.

Lemma created_record_invariant_witness :
  valid_create Sample.order_10_250 = true
  /\ exists q u t : Num.number,
       order_of Sample.order_10_250 !! "quantity" = Some (VNum q)
       /\ order_of Sample.order_10_250 !! "unitPrice" = Some (VNum u)
       /\ order_of Sample.order_10_250 !! "totalPrice" = Some (VNum t)
       /\ Num.eqb (rounded_total q u) t = true.
Proof.
  split; [evaluated|].
  destruct (created_record_invariant Sample.order_10_250)
    as (q & u & t & Hq & Hu & Ht & _ & _ & _ & He & _); [evaluated|].
  exists q, u, t. repeat split; assumption.
Defined.

Lemma update_never_creates_witness :
  "b" <> "a"
  /\ dom (snd (run (update "b" Sample.update_shipped) Sample.one_record))
     = dom Sample.one_record
  /\ snd (run (update "a" Sample.update_shipped) Sample.one_record) !! "b"
     = Sample.one_record !! "b".
Proof.
  split; [discriminate|]. split.
  - apply (update_never_creates "b" Sample.update_shipped Sample.one_record).
  - apply (update_never_creates "a" Sample.update_shipped Sample.one_record).
    discriminate.
Defined.

Lemma delete_isolated_witness :
  "a" <> "b"
  /\ snd (run (delete_by_id "b") Sample.one_record) !! "a"
     = Sample.one_record !! "a"
  /\ run (delete_by_id "a") (snd (run (delete_by_id "a") Sample.one_record)) =
     ({| status := 404; body := Message "Material order not found" |},
      snd (run (delete_by_id "a") Sample.one_record)).
Proof.
  split; [discriminate|]. split.
  - apply (delete_isolated "b" Sample.one_record). discriminate.
  - apply (delete_isolated "a" Sample.one_record).
Defined.

(** X15. A create payload whose parsed quantity and unit price multiply to
    NaN (an infinite one and a zero) is answered 400 with the total-price
    message whatever its totalPrice is: NaN is written "NaN" by [toFixed],
    parses to NaN again, and NaN is strictly equal to no number. *)
Theorem create_nan_product (body : object) :
  required_present body = true ->
  numbers_valid body = true ->
  isNaN (Num.mul (parsed (get "quantity" body))
                 (parsed (get "unitPrice" body))) = true ->
  create body =
  res 400 (Message "Error in Total Price: Your total price is incorrect").
Proof.
  intros Hr Hn Hp.
  rewrite create_unfold, Hr, (numbers_valid_parses body Hn), Hn. cbn [negb].
  replace (total_mismatch body) with true; [reflexivity|].
  unfold total_mismatch, rounded_total. rewrite (isNaN_nan _ Hp).
  reflexivity.
Qed.

Lemma create_nan_product_witness :
  let body :=
    Sample.priced (VStr "Infinity") (VStr "0.0") (VStr "1") Sample.described in
  required_present body = true
  /\ numbers_valid body = true
  /\ isNaN (Num.mul (parsed (get "quantity" body))
                    (parsed (get "unitPrice" body))) = true
  /\ create body =
     res 400 (Message "Error in Total Price: Your total price is incorrect").
Proof.
  intros body. split; [evaluated|]. split; [evaluated|]. split; [evaluated|].
  apply (create_nan_product body); evaluated.
Defined.

End Extra.
